(** * The micro-habit recommendation engine ([habit_recommender.py])

    A shallow embedding of [HabitRecommender] and the properties of its
    validate / normalise / filter / select / explain pipeline.

    Modelling conventions.
    - A Python [str] is a [string]; [str.lower] and [str.capitalize] are the
      ASCII case mappings (characters outside ASCII are left alone).
    - A Python [dict] is an insertion-ordered association list with unique
      keys ([PyDict]): [d[k] = v] overwrites in place or appends, and
      [d.values()] enumerates in insertion order, which is the order in which
      [_weighted_random_selection] flattens the pool.
    - [screen_time_minutes] is an integer ([Z]), as the signature declares;
      the [isinstance] test of [_validate_inputs] is then always passed.
    - Exceptions are values of [exn]; a computation that may raise returns
      [exn + A].
    - The random source and the clock are the [World]: [random.choice] reads
      one draw from it and advances a cursor, [datetime.now()] reads the
      clock.
    - Object identity matters for one question only (does the screen-time
      filter mutate the stored catalog?); [Store] models the objects that
      [dict.copy], [dict.get], [list * n] and [d[k] = v] allocate and update.
    - The HTTP handler of [api.py] is modelled from the parsed request body
      to the payload and status it returns ([Api]); its fields are untyped
      JSON values, so the interpreter's own exceptions on ill-typed fields
      are part of that model. *)

From stdpp Require Import list strings.
From Stdlib Require Import ZArith Ascii.

(** ** Python strings *)

Module PyStr.

Definition is_upper (c : ascii) : bool :=
  (65 <=? nat_of_ascii c) && (nat_of_ascii c <=? 90).

Definition is_lower (c : ascii) : bool :=
  (97 <=? nat_of_ascii c) && (nat_of_ascii c <=? 122).

Definition lower_char (c : ascii) : ascii :=
  if is_upper c then ascii_of_nat (nat_of_ascii c + 32) else c.

Definition upper_char (c : ascii) : ascii :=
  if is_lower c then ascii_of_nat (nat_of_ascii c - 32) else c.

(** [s.lower()] *)
Fixpoint lower (s : string) : string :=
  match s with
  | EmptyString => EmptyString
  | String c r => String (lower_char c) (lower r)
  end.

(** [s.capitalize()]: first character upper-cased, the rest lower-cased. *)
Definition capitalize (s : string) : string :=
  match s with
  | EmptyString => EmptyString
  | String c r => String (upper_char c) (lower r)
  end.

(** [sep.join(parts)] *)
Definition join (sep : string) (parts : list string) : string :=
  String.concat sep parts.

(** [lst * n] on lists. *)
Fixpoint repeat_list {A} (l : list A) (n : nat) : list A :=
  match n with
  | O => []
  | S n' => l ++ repeat_list l n'
  end.

(** [needle in haystack] on strings, as a proposition. *)
Definition substring_of (needle haystack : string) : Prop :=
  exists pre post, haystack = pre +:+ needle +:+ post.

End PyStr.

(** ** Insertion-ordered dictionaries *)

Module PyDict.

Definition dict (V : Type) := list (string * V).

(** [d.get(k)] *)
Fixpoint get {V} (k : string) (d : dict V) : option V :=
  match d with
  | [] => None
  | (k', v) :: d' => if decide (k = k') then Some v else get k d'
  end.

(** [k in d] *)
Definition mem {V} (k : string) (d : dict V) : bool :=
  match get k d with Some _ => true | None => false end.

(** [d[k] = v]: overwrite where the key sits, or append a new entry. *)
Fixpoint set {V} (k : string) (v : V) (d : dict V) : dict V :=
  match d with
  | [] => [(k, v)]
  | (k', v') :: d' =>
      if decide (k = k') then (k, v) :: d' else (k', v') :: set k v d'
  end.

Definition keys {V} (d : dict V) : list string := d.*1.

(** [d.values()] *)
Definition values {V} (d : dict V) : list V := d.*2.

(** [not d] *)
Definition is_empty {V} (d : dict V) : bool :=
  match d with [] => true | _ => false end.

(** Python's [d1 == d2]: the same keys with the same values, in any order. *)
Definition same_mapping {V} (d1 d2 : dict V) : Prop :=
  forall k, get k d1 = get k d2.

End PyDict.

(** ** Exceptions *)

Inductive exn : Type :=
| ValueError (msg : string)
| KeyError (key : string)
| IndexError (msg : string).

Definition Exc (A : Type) : Type := exn + A.

Definition exc_bind {A B} (m : Exc A) (k : A -> Exc B) : Exc B :=
  match m with
  | inl e => inl e
  | inr a => k a
  end.

(** [for x in xs: s = body(x, s)], stopping at the first exception. *)
Fixpoint for_in {A S} (xs : list A) (body : A -> S -> Exc S) (s : S) : Exc S :=
  match xs with
  | [] => inr s
  | x :: xs' => exc_bind (body x s) (for_in xs' body)
  end.

(** [d[k]] as an expression: [KeyError] when the key is absent. *)
Definition getitem {V} (k : string) (d : PyDict.dict V) : Exc V :=
  match PyDict.get k d with
  | Some v => inr v
  | None => inl (KeyError k)
  end.

(** ** The world: random source and clock *)

Record World : Type := mkWorld {
  entropy : nat -> nat;   (* the raw draws of the random source *)
  cursor : nat;           (* how many draws have been consumed *)
  clock : string          (* what [datetime.now().isoformat()] returns *)
}.

Definition M (A : Type) : Type := World -> Exc A * World.

Definition ret {A} (a : A) : M A := fun w => (inr a, w).

Definition raise {A} (e : exn) : M A := fun w => (inl e, w).

Definition bind {A B} (m : M A) (k : A -> M B) : M B :=
  fun w =>
    match m w with
    | (inl e, w') => (inl e, w')
    | (inr a, w') => k a w'
    end.

Definition lift {A} (r : Exc A) : M A := fun w => (r, w).

Notation "x <- m ;; k" := (bind m (fun x => k))
  (at level 100, m at next level, right associativity).
Notation "m ;;; k" := (bind m (fun _ => k))
  (at level 100, right associativity).

(** [random.choice(seq)]: [IndexError] on an empty sequence, otherwise the
    element at an index below [len(seq)] derived from the next draw. *)
Definition random_choice (seq : list string) : M string :=
  fun w =>
    match seq with
    | [] => (inl (IndexError "Cannot choose from an empty sequence"), w)
    | x :: _ =>
        (inr (nth (entropy w (cursor w) mod length seq) seq x),
         mkWorld (entropy w) (S (cursor w)) (clock w))
    end.

(** [datetime.now().isoformat()] *)
Definition now_isoformat : M string := fun w => (inr (clock w), w).

(** ** The engine *)

Module HabitRecommender.
Import PyStr.

Definition catalog := PyDict.dict (list string).

(** [self.habits] *)
Definition habits : catalog :=
  [ ("relaxation",
     [ "Listen to calming music for 5 minutes";
       "Take a 5-minute breathing break";
       "Practice progressive muscle relaxation";
       "Do a quick guided meditation";
       "Take a mindful tea break" ]);
    ("mindfulness",
     [ "Do a 5-minute meditation session";
       "Practice mindful breathing for 3 minutes";
       "Journal 3 things you're grateful for";
       "Do a body scan meditation";
       "Practice mindful walking for 5 minutes" ]);
    ("physical_activity",
     [ "Go for a short 10-minute walk";
       "Do 5 minutes of stretching";
       "Do 10 jumping jacks";
       "Take the stairs instead of elevator";
       "Do a quick yoga flow" ]);
    ("productivity",
     [ "Tidy your workspace";
       "Read a book for 10 minutes";
       "Write down your top 3 priorities";
       "Organize your digital files";
       "Learn something new for 10 minutes" ]);
    ("social",
     [ "Send a message to a friend";
       "Call a family member";
       "Write a thank you note";
       "Compliment someone";
       "Reach out to an old friend" ]);
    ("creative",
     [ "Doodle or sketch for 5 minutes";
       "Write a short poem or haiku";
       "Take 3 interesting photos";
       "Brainstorm ideas for a project";
       "Listen to a new genre of music" ]);
    ("digital_wellbeing",
     [ "Turn off notifications for 30 minutes";
       "Do a quick digital declutter";
       "Take a short screen break";
       "Adjust your screen brightness";
       "Set app time limits" ]);
    ("nature",
     [ "Step outside for fresh air";
       "Water your plants";
       "Look at the sky for a few minutes";
       "Listen to nature sounds";
       "Open a window for fresh air" ]) ].

(** [self.valid_moods] *)
Definition valid_moods : list string :=
  [ "stressed"; "anxious"; "overwhelmed";
    "tired"; "fatigued"; "exhausted";
    "happy"; "excited"; "motivated";
    "bored"; "understimulated"; "restless";
    "sad"; "down"; "depressed";
    "angry"; "frustrated"; "irritated" ].

(** [self.mood_categories] *)
Definition mood_categories : PyDict.dict (list string) :=
  [ ("stressed_anxious", ["stressed"; "anxious"; "overwhelmed"]);
    ("tired_fatigued", ["tired"; "fatigued"; "exhausted"]);
    ("happy_excited", ["happy"; "excited"; "motivated"]);
    ("understimulated", ["bored"; "understimulated"; "restless"]);
    ("negative",
     ["sad"; "down"; "depressed"; "angry"; "frustrated"; "irritated"]) ].

(** [self.valid_preferences] *)
Definition valid_preferences : list string :=
  [ "relaxation"; "mindfulness"; "physical_activity"; "productivity";
    "social"; "creative"; "digital_wellbeing"; "nature" ].

(** [self.preference_display_names] *)
Definition preference_display_names : PyDict.dict string :=
  [ ("relaxation", "Relaxation");
    ("mindfulness", "Mindfulness");
    ("physical_activity", "Physical Activity");
    ("productivity", "Productivity");
    ("social", "Social");
    ("creative", "Creative");
    ("digital_wellbeing", "Digital Wellbeing");
    ("nature", "Nature") ].

(** [self.mood_preference_affinity] *)
Definition mood_preference_affinity : PyDict.dict (list string) :=
  [ ("stressed_anxious", ["relaxation"; "mindfulness"; "nature"]);
    ("tired_fatigued", ["physical_activity"; "nature"; "social"]);
    ("happy_excited", ["productivity"; "creative"; "social"]);
    ("understimulated", ["creative"; "physical_activity"; "productivity"]);
    ("negative", ["mindfulness"; "social"; "nature"]) ].

Definition fallback_habit : string :=
  "Take a 5-minute break and reflect on your day".

(** The suggestion dictionary that [get_habit_suggestion] returns. *)
Record SuggestionResult : Type := mkResult {
  habit : string;
  mood : string;
  mood_category : option string;
  screen_time_minutes : Z;
  preferences : list string;
  timestamp : string;
  reasoning : string
}.

(** *** [_normalize_preferences] *)

(** [{v.lower(): k for k, v in self.preference_display_names.items()}] *)
Definition display_to_internal : PyDict.dict string :=
  fold_left (fun d kv => PyDict.set (lower kv.2) kv.1 d)
            preference_display_names [].

(** The body of the loop, for one preference. *)
Definition normalize (pref : string) : string :=
  let pref_lower := lower pref in
  match PyDict.get pref_lower display_to_internal with
  | Some internal => internal
  | None =>
      if bool_decide (pref_lower ∈ valid_preferences) then pref_lower
      else pref
  end.

Definition _normalize_preferences (prefs : list string) : list string :=
  fold_left (fun normalized pref => normalized ++ [normalize pref]) prefs [].

(** *** [_validate_inputs] *)

Definition invalid_mood_message (mood : string) : string :=
  "Invalid mood: " +:+ mood +:+ ". Valid moods are: "
    +:+ join ", " valid_moods.

Definition invalid_preference_message (pref : string) : string :=
  "Invalid preference: " +:+ pref +:+ ". Valid preferences are: "
    +:+ join ", " valid_preferences.

Definition _validate_inputs (mood : string) (screen_time_minutes : Z)
    (preferences : list string) : Exc unit :=
  if negb (bool_decide (lower mood ∈ valid_moods)) then
    inl (ValueError (invalid_mood_message mood))
  else if (screen_time_minutes <? 0)%Z then
    inl (ValueError "Screen time must be a positive number of minutes")
  else
    let normalized_preferences := _normalize_preferences preferences in
    for_in normalized_preferences
      (fun pref _ =>
         if negb (bool_decide (pref ∈ valid_preferences)) then
           inl (ValueError (invalid_preference_message pref))
         else inr tt)
      tt.

(** *** Mood classification (the loop in [get_habit_suggestion]) *)

Fixpoint classify_in (items : PyDict.dict (list string)) (mood_lower : string)
    : option string :=
  match items with
  | [] => None
  | (category, moods) :: rest =>
      if bool_decide (mood_lower ∈ moods) then Some category
      else classify_in rest mood_lower
  end.

Definition classify (mood : string) : option string :=
  classify_in mood_categories (lower mood).

(** *** [_apply_screen_time_rules] *)

(** [for category in cats: d[category] = d.get(category, []) * 2] *)
Definition double_categories (cats : list string) (d : catalog) : catalog :=
  fold_left
    (fun d category =>
       PyDict.set category
         (repeat_list (default [] (PyDict.get category d)) 2) d)
    cats d.

Definition _apply_screen_time_rules (screen_time_minutes : Z) : catalog :=
  let filtered_habits := habits in
  if (240 <? screen_time_minutes)%Z then
    double_categories ["digital_wellbeing"; "physical_activity"; "nature"]
      filtered_habits
  else if (120 <? screen_time_minutes)%Z then
    double_categories ["digital_wellbeing"] filtered_habits
  else filtered_habits.

(** *** [_apply_mood_rules] *)

(** [mood_category in self.mood_preference_affinity], with the list found. *)
Definition affinity_of (mood_category : option string) : option (list string) :=
  match mood_category with
  | Some c => PyDict.get c mood_preference_affinity
  | None => None
  end.

Definition boost_preferences (filtered_habits : catalog)
    (preferences : list string) (result_habits : catalog) : Exc catalog :=
  for_in preferences
    (fun pref result_habits =>
       if PyDict.mem pref filtered_habits then
         exc_bind (getitem pref filtered_habits) (fun hs =>
         inr (PyDict.set pref (repeat_list hs 2) result_habits))
       else inr result_habits)
    result_habits.

Definition boost_affinity (filtered_habits : catalog)
    (preferences affinity_prefs : list string) (result_habits : catalog)
    : Exc catalog :=
  for_in affinity_prefs
    (fun pref result_habits =>
       if bool_decide (pref ∈ preferences) && PyDict.mem pref result_habits then
         exc_bind (getitem pref filtered_habits) (fun hs =>
         inr (PyDict.set pref (repeat_list hs 3) result_habits))
       else inr result_habits)
    result_habits.

Definition mood_defaults (filtered_habits : catalog)
    (affinity_prefs : list string) (result_habits : catalog) : Exc catalog :=
  for_in affinity_prefs
    (fun pref result_habits =>
       if PyDict.mem pref filtered_habits then
         exc_bind (getitem pref filtered_habits) (fun hs =>
         inr (PyDict.set pref (repeat_list hs 2) result_habits))
       else inr result_habits)
    result_habits.

(** The block under [if preferences:]. *)
Definition preferred_habits (mood_category : option string)
    (filtered_habits : catalog) (preferences : list string)
    (result_habits : catalog) : Exc catalog :=
  match preferences with
  | [] => inr result_habits
  | _ :: _ =>
      exc_bind (boost_preferences filtered_habits preferences result_habits)
        (fun result_habits =>
           match affinity_of mood_category with
           | Some affinity_prefs =>
               boost_affinity filtered_habits preferences affinity_prefs
                 result_habits
           | None => inr result_habits
           end)
  end.

(** The first [if not result_habits:] block. *)
Definition or_mood_defaults (mood_category : option string)
    (filtered_habits : catalog) (result_habits : catalog) : Exc catalog :=
  if PyDict.is_empty result_habits then
    match affinity_of mood_category with
    | Some affinity_prefs =>
        mood_defaults filtered_habits affinity_prefs result_habits
    | None => inr result_habits
    end
  else inr result_habits.

Definition _apply_mood_rules (mood_category : option string)
    (filtered_habits : catalog) (preferences : list string) : Exc catalog :=
  let result_habits : catalog := [] in
  exc_bind
    (preferred_habits mood_category filtered_habits preferences result_habits)
    (fun result_habits =>
  exc_bind (or_mood_defaults mood_category filtered_habits result_habits)
    (fun result_habits =>
  if PyDict.is_empty result_habits then inr filtered_habits
  else inr result_habits)).

(** *** [_weighted_random_selection] *)

(** The flattened pool: [all_habits] after the [extend] loop. *)
Definition flatten (filtered_habits : catalog) : list string :=
  fold_left (fun all_habits category_habits => all_habits ++ category_habits)
            (PyDict.values filtered_habits) [].

Definition _weighted_random_selection (filtered_habits : catalog) : M string :=
  let all_habits := flatten filtered_habits in
  match all_habits with
  | [] => ret fallback_habit
  | _ :: _ => random_choice all_habits
  end.

(** *** [_generate_reasoning] *)

Definition mood_sentence (mood : string) (mood_category : option string)
    : list string :=
  match mood_category with
  | Some c =>
      if decide (c = "stressed_anxious") then
        ["When you're feeling " +:+ mood +:+
         ", activities that promote relaxation and mindfulness can help reduce stress."]
      else if decide (c = "tired_fatigued") then
        ["When you're feeling " +:+ mood +:+
         ", light physical activity can actually boost your energy levels."]
      else if decide (c = "happy_excited") then
        ["When you're feeling " +:+ mood +:+
         ", channeling that positive energy into productive or creative tasks can be fulfilling."]
      else if decide (c = "understimulated") then
        ["When you're feeling " +:+ mood +:+
         ", engaging in stimulating activities can help increase your motivation."]
      else if decide (c = "negative") then
        ["When you're feeling " +:+ mood +:+
         ", mindful activities and social connection can help improve your mood."]
      else []
  | None => []
  end.

Definition screen_time_sentence (screen_time_minutes : Z) : list string :=
  if (240 <? screen_time_minutes)%Z then
    ["Your screen time is quite high today, so taking a break from devices could be beneficial."]
  else if (120 <? screen_time_minutes)%Z then
    ["You've had a moderate amount of screen time today, so a short break might be refreshing."]
  else [].

Definition preference_sentence (preferences : list string) : list string :=
  match preferences with
  | [] => []
  | _ :: _ =>
      let display_prefs :=
        map (fun p => default (capitalize p)
                        (PyDict.get p preference_display_names))
            preferences in
      ["This suggestion aligns with your preference for "
         +:+ join " and " display_prefs +:+ "."]
  end.

Definition _generate_reasoning (mood : string) (mood_category : option string)
    (screen_time_minutes : Z) (preferences : list string)
    (selected_habit : string) : string :=
  let reasons :=
    mood_sentence mood mood_category
      ++ screen_time_sentence screen_time_minutes
      ++ preference_sentence preferences in
  join " " reasons.

(** *** [get_habit_suggestion] *)

Definition get_habit_suggestion (mood : string) (screen_time_minutes : Z)
    (preferences : list string) : M SuggestionResult :=
  lift (_validate_inputs mood screen_time_minutes preferences) ;;;
  let normalized_preferences := _normalize_preferences preferences in
  let mood_category := classify mood in
  let filtered_habits := _apply_screen_time_rules screen_time_minutes in
  filtered_habits <-
    lift (_apply_mood_rules mood_category filtered_habits
            normalized_preferences) ;;
  selected_habit <- _weighted_random_selection filtered_habits ;;
  let reasoning :=
    _generate_reasoning mood mood_category screen_time_minutes
      normalized_preferences selected_habit in
  timestamp <- now_isoformat ;;
  ret (mkResult selected_habit mood mood_category screen_time_minutes
         preferences timestamp reasoning).

(** The selection pool of a call: the mapping handed to
    [_weighted_random_selection]. *)
Definition selection_pool (mood : string) (screen_time_minutes : Z)
    (preferences : list string) : Exc catalog :=
  _apply_mood_rules (classify mood)
    (_apply_screen_time_rules screen_time_minutes)
    (_normalize_preferences preferences).

End HabitRecommender.

(** ** Objects and references

    The part of the engine where identity matters: [self.habits] is a
    reference to a dict object whose values are references to list objects.
    A store is the sequence of objects allocated so far and a reference is an
    index into it. *)

Module Store.

Abbreviation loc := nat.

Inductive obj : Type :=
| OList (items : list string)
| ODict (entries : PyDict.dict loc).

Abbreviation store := (list obj).

(** Store computations; [None] is an access through a dangling or
    ill-typed reference. *)
Definition St (A : Type) : Type := store -> option (A * store).

Definition st_ret {A} (a : A) : St A := fun h => Some (a, h).

Definition st_bind {A B} (m : St A) (k : A -> St B) : St B :=
  fun h =>
    match m h with
    | Some (a, h') => k a h'
    | None => None
    end.

Notation "x <~ m ;; k" := (st_bind m (fun x => k))
  (at level 100, m at next level, right associativity).

Definition alloc (o : obj) : St loc := fun h => Some (length h, h ++ [o]).

Definition read_list (a : loc) : St (list string) :=
  fun h =>
    match h !! a with
    | Some (OList l) => Some (l, h)
    | _ => None
    end.

Definition read_dict (a : loc) : St (PyDict.dict loc) :=
  fun h =>
    match h !! a with
    | Some (ODict d) => Some (d, h)
    | _ => None
    end.

Definition write (a : loc) (o : obj) : St unit :=
  fun h => if decide (a < length h) then Some (tt, <[a:=o]> h) else None.

(** [d.copy()]: a new dict object with the same entries (a shallow copy:
    the values are the same references). *)
Definition dict_copy (d : loc) : St loc :=
  entries <~ read_dict d ;; alloc (ODict entries).

(** The list display [[]]: a new empty list object. *)
Definition new_list : St loc := alloc (OList []).

(** [d.get(k, dflt)] *)
Definition dict_get (d : loc) (k : string) (dflt : loc) : St loc :=
  entries <~ read_dict d ;; st_ret (default dflt (PyDict.get k entries)).

(** [lst * n]: a new list object. *)
Definition list_mul (lst : loc) (n : nat) : St loc :=
  items <~ read_list lst ;; alloc (OList (PyStr.repeat_list items n)).

(** [d[k] = v]: updates the dict object in place. *)
Definition dict_setitem (d : loc) (k : string) (v : loc) : St unit :=
  entries <~ read_dict d ;; write d (ODict (PyDict.set k v entries)).

Fixpoint for_each {A} (xs : list A) (body : A -> St unit) : St unit :=
  match xs with
  | [] => st_ret tt
  | x :: xs' => _ <~ body x ;; for_each xs' body
  end.

(** [filtered_habits[category] = filtered_habits.get(category, []) * 2] *)
Definition double_category (filtered_habits : loc) (category : string)
    : St unit :=
  empty <~ new_list ;;
  old <~ dict_get filtered_habits category empty ;;
  doubled <~ list_mul old 2 ;;
  dict_setitem filtered_habits category doubled.

(** [_apply_screen_time_rules], with [self_habits] the reference held in
    [self.habits]. *)
Definition _apply_screen_time_rules (self_habits : loc)
    (screen_time_minutes : Z) : St loc :=
  filtered_habits <~ dict_copy self_habits ;;
  _ <~ (if (240 <? screen_time_minutes)%Z then
          for_each ["digital_wellbeing"; "physical_activity"; "nature"]
            (double_category filtered_habits)
        else if (120 <? screen_time_minutes)%Z then
          for_each ["digital_wellbeing"] (double_category filtered_habits)
        else st_ret tt) ;;
  st_ret filtered_habits.

(** The dict display of [__init__]: one list object per category, then the
    dict object that refers to them. *)
Fixpoint alloc_entries (c : HabitRecommender.catalog) : St (PyDict.dict loc) :=
  match c with
  | [] => st_ret []
  | (k, items) :: c' =>
      a <~ alloc (OList items) ;;
      rest <~ alloc_entries c' ;;
      st_ret ((k, a) :: rest)
  end.

Definition init_habits : St loc :=
  entries <~ alloc_entries HabitRecommender.habits ;; alloc (ODict entries).

(** What a dict reference denotes: the mapping from keys to list contents. *)
Definition deref_entry (h : store) (e : string * loc)
    : option (string * list string) :=
  match h !! e.2 with
  | Some (OList items) => Some (e.1, items)
  | _ => None
  end.

Definition view (h : store) (d : loc) : option HabitRecommender.catalog :=
  match h !! d with
  | Some (ODict entries) => mapM (deref_entry h) entries
  | _ => None
  end.

(** Every object of [h] is still there, unchanged, in [h']. *)
Definition preserved (h h' : store) : Prop :=
  forall (a : loc) (o : obj), h !! a = Some o -> h' !! a = Some o.

End Store.

(** ** Reference descriptions

    What the specification says a stage produces, written independently of
    the code and compared with it below. *)

Module Described.

(** The catalog in which the habit list of every category named in
    [boosted] appears twice in a row and every other list is as it was. *)
Definition duplicated_in (boosted : list string)
    (c : HabitRecommender.catalog) : HabitRecommender.catalog :=
  map (fun kv : string * list string =>
         if bool_decide (kv.1 ∈ boosted) then (kv.1, kv.2 ++ kv.2) else kv)
      c.

(** How often [x] occurs in [l]. *)
Definition occurrences (x : string) (l : list string) : nat :=
  length (filter (fun y => y = x) l).

(** A list with its duplicate entries removed, first occurrences kept in
    order (Python's [list(dict.fromkeys(p))]). *)
Fixpoint dedup (seen p : list string) : list string :=
  match p with
  | [] => []
  | x :: p' =>
      if bool_decide (x ∈ seen) then dedup seen p'
      else x :: dedup (x :: seen) p'
  end.

Definition without_duplicates (p : list string) : list string := dedup [] p.

(** An entry of the mood/preference filter's own result: a key of the
    incoming catalog with that catalog's list, two or three times over. *)
Definition boosted_from (fh : HabitRecommender.catalog)
    (kv : string * list string) : Prop :=
  exists v n, PyDict.get kv.1 fh = Some v /\
              kv.2 = PyStr.repeat_list v n /\ (n = 2 \/ n = 3).

(** A catalog the selector can draw from: it has an entry, no entry has an
    empty list, and every habit in it is a habit of the original catalog. *)
Definition stocked (d : HabitRecommender.catalog) : Prop :=
  d <> [] /\
  Forall (fun kv : string * list string =>
            kv.2 <> [] /\
            Forall (fun h => h ∈ HabitRecommender.flatten
                                   HabitRecommender.habits) kv.2) d.

(** The habit list of a category in the original catalog. *)
Definition habits_of (category : string) : list string :=
  default [] (PyDict.get category HabitRecommender.habits).

(** One round of a boosting loop whose guard has passed or failed, without
    the exception plumbing: overwrite the entry of [pref] with its list
    from the incoming catalog [n] times over, if the catalog has it. *)
Definition boost_step (fh : HabitRecommender.catalog) (n : nat)
    (r : HabitRecommender.catalog) (pref : string)
    : HabitRecommender.catalog :=
  match PyDict.get pref fh with
  | Some v => PyDict.set pref (PyStr.repeat_list v n) r
  | None => r
  end.

(** The entries of [p] that are categories of the catalog [fh], in order. *)
Definition present_in (fh : HabitRecommender.catalog) (p : list string)
    : list string :=
  filter (fun k => k ∈ PyDict.keys fh) p.

End Described.

(** ** Successive calls *)

Module Calls.

(** One call of the screen-time filter per screen time in [ts], on the same
    engine, collecting the references returned. *)
Fixpoint filter_each (self_habits : Store.loc) (ts : list Z)
    : Store.St (list Store.loc) :=
  match ts with
  | [] => Store.st_ret []
  | t :: ts' =>
      Store.st_bind (Store._apply_screen_time_rules self_habits t) (fun a =>
      Store.st_bind (filter_each self_habits ts') (fun rest =>
      Store.st_ret (a :: rest)))
  end.

(** The categories whose list the filter replaces at screen time [t]. *)
Definition boosted_categories (t : Z) : list string :=
  if (240 <? t)%Z then ["digital_wellbeing"; "physical_activity"; "nature"]
  else if (120 <? t)%Z then ["digital_wellbeing"]
  else [].

End Calls.

(** ** The HTTP handler ([api.py])

    [recommend] from the point where [request.get_json()] has delivered the
    parsed body, up to the pair (payload, status) handed to [jsonify]. The
    body and its fields are untyped JSON values, and the engine is called
    with whatever the body holds, so the places where the interpreter itself
    raises ([AttributeError] for [.lower()] on a non-string, [TypeError] for
    iterating, subscripting or testing membership in a value that does not
    support it) are part of the model. JSON numbers are integers; a body
    with a fractional number is outside the model. *)

Module Api.

#[local] Unset Elimination Schemes.

Inductive json : Type :=
| JNull
| JBool (b : bool)
| JInt (z : Z)
| JStr (s : string)
| JList (items : list json)
| JObj (fields : PyDict.dict json).

#[local] Set Elimination Schemes.

Inductive py_exn : Type :=
| Engine (e : exn)     (* raised by a [raise] or a lookup of the engine *)
| AttributeError
| TypeError.

(** The receiver of [.lower()]: a string, or [AttributeError]. *)
Definition as_str (v : json) : option string :=
  match v with
  | JStr s => Some s
  | _ => None
  end.

(** [isinstance(v, (int, float))]: integers, and booleans (a subclass of
    [int], [True] being 1 and [False] 0). *)
Definition as_number (v : json) : option Z :=
  match v with
  | JInt z => Some z
  | JBool true => Some 1%Z
  | JBool false => Some 0%Z
  | _ => None
  end.

(** The characters of a string, as one-character strings. *)
Fixpoint chars (s : string) : list string :=
  match s with
  | EmptyString => []
  | String c r => String c EmptyString :: chars r
  end.

(** [for pref in v]: the elements of a list, the characters of a string, the
    keys of an object; anything else is not iterable ([TypeError]). *)
Definition py_iter (v : json) : option (list json) :=
  match v with
  | JList items => Some items
  | JStr s => Some (JStr <$> chars s)
  | JObj fields => Some (JStr <$> PyDict.keys fields)
  | _ => None
  end.

(** The suggestion dictionary, with the screen time and the preferences as
    the objects the caller passed. *)
Record Suggestion : Type := mkSuggestion {
  habit : string;
  mood : string;
  mood_category : option string;
  screen_time_minutes : json;
  preferences : json;
  timestamp : string;
  reasoning : string
}.

(** [recommender.get_habit_suggestion(mood, screen_time, preferences)] on
    untyped arguments, in the order in which [_validate_inputs] touches them:
    [mood.lower()], the mood test, the [isinstance] and sign tests, the
    iteration and [pref.lower()] of [_normalize_preferences], and then the
    engine proper. *)
Definition call_get_habit_suggestion (mood screen_time preferences : json)
    : World -> (py_exn + Suggestion) * World :=
  fun w =>
    match as_str mood with
    | None => (inl AttributeError, w)
    | Some m =>
        if negb (bool_decide (PyStr.lower m ∈ HabitRecommender.valid_moods))
        then (inl (Engine (ValueError
                             (HabitRecommender.invalid_mood_message m))), w)
        else
          match as_number screen_time with
          | None =>
              (inl (Engine (ValueError
                 "Screen time must be a positive number of minutes")), w)
          | Some t =>
              if (t <? 0)%Z then
                (inl (Engine (ValueError
                   "Screen time must be a positive number of minutes")), w)
              else
                match py_iter preferences with
                | None => (inl TypeError, w)
                | Some items =>
                    match mapM as_str items with
                    | None => (inl AttributeError, w)
                    | Some prefs =>
                        match HabitRecommender.get_habit_suggestion m t prefs w
                        with
                        | (inl e, w') => (inl (Engine e), w')
                        | (inr r, w') =>
                            (inr (mkSuggestion
                                    (HabitRecommender.habit r)
                                    (HabitRecommender.mood r)
                                    (HabitRecommender.mood_category r)
                                    screen_time preferences
                                    (HabitRecommender.timestamp r)
                                    (HabitRecommender.reasoning r)), w')
                        end
                    end
                end
          end
    end.

(** [needle in haystack] on strings. *)
Fixpoint contains (needle haystack : string) : bool :=
  String.prefix needle haystack
  || match haystack with
     | EmptyString => false
     | String _ rest => contains needle rest
     end.

(** [field in data]: a key of an object, an element of a list, a substring
    of a string; [None] is the [TypeError] of any other value. *)
Definition has_field (field : string) (data : json) : option bool :=
  match data with
  | JObj fields => Some (PyDict.mem field fields)
  | JList items =>
      Some (existsb (fun v => match v with
                              | JStr s => bool_decide (s = field)
                              | _ => false
                              end) items)
  | JStr s => Some (contains field s)
  | _ => None
  end.

Definition required_fields : list string :=
  ["mood"; "screen_time_minutes"; "preferences"].

(** The loop over [required_fields]: [inr (Some field)] is the early return
    for the first missing field. *)
Fixpoint check_required (fields : list string) (data : json)
    : py_exn + option string :=
  match fields with
  | [] => inr None
  | field :: rest =>
      match has_field field data with
      | None => inl TypeError
      | Some false => inr (Some field)
      | Some true => check_required rest data
      end
  end.

(** [data[key]] with a string key. *)
Definition subscript (data : json) (key : string) : py_exn + json :=
  match data with
  | JObj fields =>
      match PyDict.get key fields with
      | Some v => inr v
      | None => inl (Engine (KeyError key))
      end
  | _ => inl TypeError
  end.

(** What the handler returns: the payload given to [jsonify] with its
    status. The text of a 500 payload is derived from the exception caught
    and is kept as that exception. *)
Inductive response : Type :=
| Ok200 (mood screen_time_minutes preferences : json)
        (suggested_habit : Suggestion)
| BadRequest400 (error : string)
| InternalError500 (cause : py_exn).

(** The two [except] clauses. *)
Definition handle (e : py_exn) : response :=
  match e with
  | Engine (ValueError msg) => BadRequest400 msg
  | _ => InternalError500 e
  end.

Definition recommend (data : json) : World -> response * World :=
  fun w =>
    match check_required required_fields data with
    | inl e => (handle e, w)
    | inr (Some field) =>
        (BadRequest400 ("Missing required field: " +:+ field), w)
    | inr None =>
        match subscript data "mood" with
        | inl e => (handle e, w)
        | inr mood =>
            match subscript data "screen_time_minutes" with
            | inl e => (handle e, w)
            | inr screen_time =>
                match subscript data "preferences" with
                | inl e => (handle e, w)
                | inr preferences =>
                    match call_get_habit_suggestion mood screen_time
                            preferences w with
                    | (inl e, w') => (handle e, w')
                    | (inr suggestion, w') =>
                        (Ok200 mood screen_time preferences suggestion, w')
                    end
                end
            end
        end
    end.

End Api.

(** * Properties *)

Import PyStr HabitRecommender Described.

(** Closed decidable facts about the static tables are settled by evaluation. *)
Ltac by_compute := apply (bool_decide_unpack _); vm_compute; exact I.

(** ** Strings *)

Lemma append_assoc (a b c : string) : (a +:+ b) +:+ c = a +:+ b +:+ c.
Proof.
  induction a as [|ch a IH]; [reflexivity |].
  change (String ch ((a +:+ b) +:+ c) = String ch (a +:+ b +:+ c)).
  by rewrite IH.
Qed.

Lemma join_cons sep x y ys :
  join sep (x :: y :: ys) = x +:+ sep +:+ join sep (y :: ys).
Proof. reflexivity. Qed.

Lemma append_empty_r (a : string) : a +:+ "" = a.
Proof.
  induction a as [|ch a IH]; [reflexivity |].
  change (String ch (a +:+ "") = String ch a). by rewrite IH.
Qed.

Lemma join_contains sep (parts : list string) v :
  v ∈ parts -> substring_of v (join sep parts).
Proof.
  induction parts as [|x [|y ys] IH]; intros Hin.
  - by apply elem_of_nil in Hin.
  - apply list_elem_of_singleton in Hin as ->.
    exists "", "". simpl. by rewrite append_empty_r.
  - rewrite join_cons. apply elem_of_cons in Hin as [-> | Hin].
    + exists "", (sep +:+ join sep (y :: ys)). reflexivity.
    + destruct (IH Hin) as (pre & post & ->).
      exists (x +:+ sep +:+ pre), post. by rewrite !append_assoc.
Qed.

Lemma substring_of_append_l p v s : substring_of v s -> substring_of v (p +:+ s).
Proof.
  intros (pre & post & ->). exists (p +:+ pre), post. by rewrite append_assoc.
Qed.

Lemma repeat_list_2 {A} (l : list A) : repeat_list l 2 = l ++ l.
Proof. simpl. by rewrite app_nil_r. Qed.

Lemma elem_of_repeat_list {A} (l : list A) n x : x ∈ repeat_list l n -> x ∈ l.
Proof.
  induction n as [|n IH]; simpl; intros Hin.
  - by apply elem_of_nil in Hin.
  - apply elem_of_app in Hin as [Hin | Hin]; auto.
Qed.

Lemma repeat_list_nonempty {A} (l : list A) n :
  l <> [] -> repeat_list l (S n) <> [].
Proof. destruct l; simpl; congruence. Qed.

(** ** Dictionaries *)

Lemma get_elem_of {V} k (v : V) d : PyDict.get k d = Some v -> (k, v) ∈ d.
Proof.
  induction d as [|[k' v'] d IH]; simpl; [discriminate |].
  case_decide as Hk.
  - intros [= ->]. subst. apply elem_of_cons. by left.
  - intros H. apply elem_of_cons. right. auto.
Qed.

Lemma get_set_eq {V} k (v : V) d : PyDict.get k (PyDict.set k v d) = Some v.
Proof.
  induction d as [|[k' v'] d IH]; simpl.
  - by rewrite decide_True.
  - case_decide; simpl.
    + by rewrite decide_True.
    + by rewrite decide_False.
Qed.

Lemma get_set_ne {V} k k' (v : V) d :
  k <> k' -> PyDict.get k' (PyDict.set k v d) = PyDict.get k' d.
Proof.
  intros Hne. induction d as [|[k0 v0] d IH]; simpl.
  - rewrite decide_False; [reflexivity | congruence].
  - destruct (decide (k = k0)) as [-> | Hk]; simpl.
    + by rewrite !decide_False by congruence.
    + by rewrite IH.
Qed.

Lemma get_set {V} k k' (v : V) d :
  PyDict.get k' (PyDict.set k v d)
  = if decide (k = k') then Some v else PyDict.get k' d.
Proof.
  case_decide as Hk; [subst; apply get_set_eq | by apply get_set_ne].
Qed.

Lemma mem_get {V} k (d : PyDict.dict V) :
  PyDict.mem k d = true <-> is_Some (PyDict.get k d).
Proof.
  unfold PyDict.mem. destruct (PyDict.get k d); split; intros H;
    try done; by destruct H.
Qed.

Lemma set_not_empty {V} k (v : V) d : PyDict.set k v d <> [].
Proof. destruct d as [|[k' v'] d]; simpl; [done | by case_decide]. Qed.

Lemma Forall_set {V} (P : string * V -> Prop) k v d :
  P (k, v) -> Forall P d -> Forall P (PyDict.set k v d).
Proof.
  intros Hv. induction 1 as [|[k' v'] d Hx Hd IH]; simpl.
  - by constructor.
  - case_decide; constructor; auto.
Qed.

Lemma getitem_of_mem {V} k (d : PyDict.dict V) :
  PyDict.mem k d = true -> exists v, PyDict.get k d = Some v /\ getitem k d = inr v.
Proof.
  unfold PyDict.mem, getitem. destruct (PyDict.get k d) as [v|]; [eauto | done].
Qed.

(** ** Loops *)

(** A loop whose body keeps an invariant and never raises runs to the end. *)
Lemma for_in_invariant {A S} (P : S -> Prop) (xs : list A)
    (body : A -> S -> Exc S) (s : S) :
  P s ->
  (forall x s0, x ∈ xs -> P s0 -> exists s1, body x s0 = inr s1 /\ P s1) ->
  exists s', for_in xs body s = inr s' /\ P s'.
Proof.
  revert s. induction xs as [|x xs IH]; intros s Hs Hbody; simpl.
  - eauto.
  - destruct (Hbody x s) as (s1 & -> & Hs1); [apply elem_of_cons; by left | done |].
    simpl. apply IH; [done |].
    intros y s0 Hy. apply Hbody. apply elem_of_cons. by right.
Qed.

Lemma fold_left_snoc_map {A B} (f : A -> B) (xs : list A) (acc : list B) :
  fold_left (fun acc x => acc ++ [f x]) xs acc = acc ++ map f xs.
Proof.
  revert acc. induction xs as [|x xs IH]; intros acc; simpl.
  - by rewrite app_nil_r.
  - rewrite IH. by rewrite <- app_assoc.
Qed.

Lemma fold_left_app_concat {A} (xss : list (list A)) (acc : list A) :
  fold_left (fun acc xs => acc ++ xs) xss acc = acc ++ concat xss.
Proof.
  revert acc. induction xss as [|xs xss IH]; intros acc; simpl.
  - by rewrite app_nil_r.
  - rewrite IH. by rewrite <- app_assoc.
Qed.

(** ** The static tables *)

Lemma _normalize_preferences_map prefs :
  _normalize_preferences prefs = map normalize prefs.
Proof. unfold _normalize_preferences. by rewrite fold_left_snoc_map. Qed.

Lemma flatten_concat (d : catalog) : flatten d = concat (PyDict.values d).
Proof. unfold flatten. by rewrite fold_left_app_concat. Qed.

Lemma classify_in_sound items m c :
  classify_in items m = Some c -> exists ms, (c, ms) ∈ items /\ m ∈ ms.
Proof.
  induction items as [|[c' ms'] items IH]; simpl; [discriminate |].
  case_bool_decide as Hm.
  - intros [= <-]. exists ms'. split; [apply elem_of_cons; by left | done].
  - intros H. destruct (IH H) as (ms & Hin & Hms).
    exists ms. split; [apply elem_of_cons; by right | done].
Qed.

Lemma classify_valid_moods :
  Forall (fun m => is_Some (classify_in mood_categories m)) valid_moods.
Proof. by_compute. Qed.

Lemma mood_sets_within_vocabulary :
  Forall (fun e : string * list string => Forall (fun m => m ∈ valid_moods) e.2)
         mood_categories.
Proof. by_compute. Qed.

Lemma mood_sets_disjoint :
  Forall (fun e1 : string * list string =>
    Forall (fun e2 : string * list string =>
      Forall (fun m => m ∈ e2.2 -> e1 = e2) e1.2) mood_categories)
    mood_categories.
Proof. by_compute. Qed.

(** C8. The mood taxonomy partitions the valid-mood vocabulary: there are 18
    distinct valid moods and 5 mood-categories; a string is a valid mood
    exactly when some mood-category lists it; two mood-categories that list
    the same mood are the same entry; and on every mood whose lower-cased
    form is valid the classifier returns a mood-category that lists it. *)
Theorem mood_taxonomy_partitions_vocabulary :
  length valid_moods = 18 /\ NoDup valid_moods /\
  length mood_categories = 5 /\ NoDup (PyDict.keys mood_categories) /\
  (forall m, m ∈ valid_moods <->
             exists c ms, (c, ms) ∈ mood_categories /\ m ∈ ms) /\
  (forall c1 ms1 c2 ms2 m,
     (c1, ms1) ∈ mood_categories -> (c2, ms2) ∈ mood_categories ->
     m ∈ ms1 -> m ∈ ms2 -> c1 = c2 /\ ms1 = ms2) /\
  (forall mood, lower mood ∈ valid_moods ->
     exists c ms, classify mood = Some c /\
                  (c, ms) ∈ mood_categories /\ lower mood ∈ ms).
Proof.
  split; [reflexivity |]. split; [by_compute |].
  split; [reflexivity |]. split; [by_compute |].
  split; [| split].
  - intros m. split.
    + intros Hm.
      destruct (proj1 (Forall_forall _ _) classify_valid_moods m Hm) as [c Hc].
      destruct (classify_in_sound _ _ _ Hc) as (ms & ? & ?). eauto.
    + intros (c & ms & Hin & Hm).
      pose proof (proj1 (Forall_forall _ _) mood_sets_within_vocabulary _ Hin) as H.
      exact (proj1 (Forall_forall _ _) H m Hm).
  - intros c1 ms1 c2 ms2 m H1 H2 Hm1 Hm2.
    pose proof (proj1 (Forall_forall _ _) mood_sets_disjoint _ H1) as H.
    pose proof (proj1 (Forall_forall _ _) H _ H2) as H'.
    pose proof (proj1 (Forall_forall _ _) H' m Hm1 Hm2) as [= -> ->]. done.
  - intros mood Hm. unfold classify.
    destruct (proj1 (Forall_forall _ _) classify_valid_moods _ Hm) as [c Hc].
    destruct (classify_in_sound _ _ _ Hc) as (ms & ? & ?). eauto.
Qed.

(** ** Preference normalisation *)

Lemma display_to_internal_values_fixed :
  Forall (fun kv : string * string => normalize kv.2 = kv.2) display_to_internal.
Proof. by_compute. Qed.

Lemma valid_preferences_fixed :
  Forall (fun k => normalize k = k) valid_preferences.
Proof. by_compute. Qed.

Lemma normalize_canonical k : k ∈ valid_preferences -> normalize k = k.
Proof. apply (proj1 (Forall_forall _ _) valid_preferences_fixed). Qed.

(** C5. Preference normalisation is idempotent, on one preference and on a
    preference list; a canonical key is returned unchanged, and a string that
    resolves neither as a display name nor as a key is passed through
    unchanged. *)
Theorem normalize_idempotent :
  (forall x, normalize (normalize x) = normalize x) /\
  (forall k, k ∈ valid_preferences -> normalize k = k) /\
  (forall x, PyDict.get (lower x) display_to_internal = None ->
             lower x ∉ valid_preferences -> normalize x = x) /\
  (forall prefs,
     _normalize_preferences (_normalize_preferences prefs)
     = _normalize_preferences prefs).
Proof.
  assert (Hidem : forall x, normalize (normalize x) = normalize x).
  { intros x. unfold normalize at 2 3.
    destruct (PyDict.get (lower x) display_to_internal) as [k|] eqn:Hget.
    - apply get_elem_of in Hget.
      exact (proj1 (Forall_forall _ _) display_to_internal_values_fixed _ Hget).
    - case_bool_decide as Hin.
      + by apply normalize_canonical.
      + unfold normalize. rewrite Hget. by rewrite bool_decide_false. }
  split; [exact Hidem |]. split; [exact normalize_canonical |]. split.
  - intros x Hget Hin. unfold normalize. rewrite Hget.
    by rewrite bool_decide_false.
  - intros prefs. rewrite !_normalize_preferences_map, map_map.
    apply map_ext. intros x. apply Hidem.
Qed.

(** ** The screen-time filter *)


(** The three outcomes of the filter, by screen-time tier. *)
Lemma _apply_screen_time_rules_tiers t :
  ((240 < t)%Z /\
   _apply_screen_time_rules t
   = double_categories ["digital_wellbeing"; "physical_activity"; "nature"]
       habits) \/
  ((120 < t <= 240)%Z /\
   _apply_screen_time_rules t = double_categories ["digital_wellbeing"] habits) \/
  ((t <= 120)%Z /\ _apply_screen_time_rules t = habits).
Proof.
  unfold _apply_screen_time_rules.
  destruct (Z.ltb_spec 240 t); [by left |].
  destruct (Z.ltb_spec 120 t); [right; left | right; right]; split; [lia | done | lia | done].
Qed.

Lemma catalog_entries_occur_once :
  Forall (fun kv : string * list string =>
            Forall (fun x => occurrences x kv.2 = 1) kv.2) habits.
Proof. by_compute. Qed.

Lemma occurrences_app x l1 l2 :
  occurrences x (l1 ++ l2)
  = occurrences x l1 + occurrences x l2.
Proof. unfold occurrences. by rewrite filter_app, length_app. Qed.

(** C4. The screen-time filter by tier: above 240 minutes exactly the lists of
    digital_wellbeing, physical_activity and nature are duplicated; above 120
    and up to 240 exactly the digital_wellbeing list; up to 120 the catalog is
    returned as it is. A duplicated list holds each of its habits twice. *)
Theorem screen_time_filter_tiers (t : Z) :
  ((240 < t)%Z ->
   _apply_screen_time_rules t
   = duplicated_in
       ["digital_wellbeing"; "physical_activity"; "nature"] habits) /\
  ((120 < t <= 240)%Z ->
   _apply_screen_time_rules t
   = duplicated_in ["digital_wellbeing"] habits) /\
  ((t <= 120)%Z -> _apply_screen_time_rules t = habits) /\
  (forall c l x, (c, l) ∈ habits -> x ∈ l ->
     occurrences x l = 1 /\ occurrences x (l ++ l) = 2).
Proof.
  split; [| split; [| split]].
  - intros Ht. destruct (_apply_screen_time_rules_tiers t)
      as [[_ ->] | [[? _] | [? _]]]; [reflexivity | lia | lia].
  - intros Ht. destruct (_apply_screen_time_rules_tiers t)
      as [[? _] | [[_ ->] | [? _]]]; [lia | reflexivity | lia].
  - intros Ht. destruct (_apply_screen_time_rules_tiers t)
      as [[? _] | [[? _] | [_ ->]]]; [lia | lia | reflexivity].
  - intros c l x Hcl Hx.
    pose proof (proj1 (Forall_forall _ _) catalog_entries_occur_once _ Hcl) as H.
    pose proof (proj1 (Forall_forall _ _) H x Hx) as H1. simpl in H1.
    split; [done |]. rewrite occurrences_app, H1. reflexivity.
Qed.

(** ** Validation *)

Lemma validate_invalid_mood mood t prefs :
  lower mood ∉ valid_moods ->
  _validate_inputs mood t prefs = inl (ValueError (invalid_mood_message mood)).
Proof.
  intros Hm. unfold _validate_inputs. by rewrite bool_decide_false.
Qed.

Lemma validate_preferences_loop (ps : list string) :
  Forall (fun p => p ∈ valid_preferences) ps ->
  for_in ps
    (fun pref (_ : unit) =>
       if negb (bool_decide (pref ∈ valid_preferences)) then
         inl (ValueError (invalid_preference_message pref))
       else inr tt) tt = inr tt.
Proof.
  induction 1 as [|p ps Hp Hps IH]; simpl; [reflexivity |].
  by rewrite bool_decide_true.
Qed.

Lemma validate_ok mood t prefs :
  lower mood ∈ valid_moods -> (0 <= t)%Z ->
  Forall (fun p => normalize p ∈ valid_preferences) prefs ->
  _validate_inputs mood t prefs = inr tt.
Proof.
  intros Hm Ht Hp. unfold _validate_inputs.
  rewrite bool_decide_true by done. simpl.
  destruct (Z.ltb_spec t 0); [lia |].
  apply validate_preferences_loop.
  rewrite _normalize_preferences_map. by apply Forall_map.
Qed.

(** ** The mood/preference filter *)

Lemma boost_preferences_shape fh prefs result :
  Forall (boosted_from fh) result ->
  exists r, boost_preferences fh prefs result = inr r /\
            Forall (boosted_from fh) r.
Proof.
  intros Hres. unfold boost_preferences.
  apply (for_in_invariant (Forall (boosted_from fh))); [done |].
  intros pref s _ Hs. destruct (PyDict.mem pref fh) eqn:Hmem.
  - destruct (getitem_of_mem _ _ Hmem) as (v & Hget & ->). simpl.
    eexists. split; [reflexivity |].
    apply Forall_set; [| done]. exists v, 2. auto.
  - eauto.
Qed.

Lemma boost_affinity_shape fh prefs aff result :
  Forall (boosted_from fh) result ->
  exists r, boost_affinity fh prefs aff result = inr r /\
            Forall (boosted_from fh) r /\ (result <> [] -> r <> []).
Proof.
  intros Hres. unfold boost_affinity.
  destruct (for_in_invariant
    (fun r => Forall (boosted_from fh) r /\ (result <> [] -> r <> []))
    aff
    (fun pref result_habits =>
       if bool_decide (pref ∈ prefs) && PyDict.mem pref result_habits then
         exc_bind (getitem pref fh) (fun hs =>
         inr (PyDict.set pref (repeat_list hs 3) result_habits))
       else inr result_habits) result) as (r & Hr & HP); [done | | eauto].
  intros pref s _ [Hs Hne].
  destruct (bool_decide (pref ∈ prefs) && PyDict.mem pref s) eqn:Hguard;
    [| eauto].
  apply andb_true_iff in Hguard as [_ Hmem].
  apply mem_get in Hmem as [x Hx]. apply get_elem_of in Hx.
  destruct (proj1 (Forall_forall _ _) Hs _ Hx) as (v & n & Hget & _).
  simpl in Hget. unfold getitem. rewrite Hget. simpl.
  eexists. split; [reflexivity |]. split.
  - apply Forall_set; [| done]. exists v, 3. auto.
  - intros _. apply set_not_empty.
Qed.

Lemma mood_defaults_shape fh aff result :
  Forall (boosted_from fh) result ->
  exists r, mood_defaults fh aff result = inr r /\ Forall (boosted_from fh) r.
Proof. apply boost_preferences_shape. Qed.

Lemma preferred_habits_shape mc fh prefs :
  exists r, preferred_habits mc fh prefs [] = inr r /\
            Forall (boosted_from fh) r.
Proof.
  unfold preferred_habits. destruct prefs as [|p ps]; [by exists [] |].
  destruct (boost_preferences_shape fh (p :: ps) []) as (r0 & -> & H0);
    [constructor |]. simpl.
  destruct (affinity_of mc) as [aff|]; [| eauto].
  destruct (boost_affinity_shape fh (p :: ps) aff r0 H0) as (r & -> & ? & _).
  eauto.
Qed.

Lemma or_mood_defaults_shape mc fh result :
  Forall (boosted_from fh) result ->
  exists r, or_mood_defaults mc fh result = inr r /\
            Forall (boosted_from fh) r.
Proof.
  intros Hres. unfold or_mood_defaults.
  destruct (PyDict.is_empty result); [| eauto].
  destruct (affinity_of mc) as [aff|]; [| eauto].
  by apply mood_defaults_shape.
Qed.

(** The filter never raises, and it returns either the incoming catalog
    itself or a non-empty mapping of boosted entries. *)
Lemma _apply_mood_rules_shape mc fh prefs :
  exists r, _apply_mood_rules mc fh prefs = inr r /\
            (r = fh \/ (r <> [] /\ Forall (boosted_from fh) r)).
Proof.
  unfold _apply_mood_rules. cbv zeta.
  destruct (preferred_habits_shape mc fh prefs) as (r1 & -> & H1). simpl.
  destruct (or_mood_defaults_shape mc fh r1 H1) as (r2 & -> & H2). simpl.
  destruct r2 as [|e r2]; simpl; eauto.
Qed.

(** ** Selection *)

Lemma random_choice_elem (seq : list string) w :
  seq <> [] ->
  exists h, h ∈ seq /\
    random_choice seq w
    = (inr h, mkWorld (entropy w) (S (cursor w)) (clock w)).
Proof.
  intros Hne. destruct seq as [|x seq]; [done |].
  eexists. split; [| reflexivity].
  apply nth_elem_of. apply Nat.mod_upper_bound. simpl. lia.
Qed.

Lemma _weighted_random_selection_elem fh w :
  flatten fh <> [] ->
  exists h, h ∈ flatten fh /\
    _weighted_random_selection fh w
    = (inr h, mkWorld (entropy w) (S (cursor w)) (clock w)).
Proof.
  intros Hne. unfold _weighted_random_selection.
  destruct (flatten fh) as [|x l] eqn:Hfl; [done |].
  apply random_choice_elem. done.
Qed.

Lemma _weighted_random_selection_total fh w :
  exists h w', _weighted_random_selection fh w = (inr h, w').
Proof.
  destruct (flatten fh) as [|x l] eqn:Hfl.
  - unfold _weighted_random_selection. rewrite Hfl. by eexists _, _.
  - destruct (_weighted_random_selection_elem fh w) as (h & _ & ->);
      [by rewrite Hfl | by eexists _, _].
Qed.

(** ** The whole call *)

(** A call that passes validation returns the suggestion built from what the
    selector drew from the selection pool. *)
Lemma get_habit_suggestion_run mood t prefs pool w :
  _validate_inputs mood t prefs = inr tt ->
  selection_pool mood t prefs = inr pool ->
  forall h w',
    _weighted_random_selection pool w = (inr h, w') ->
    get_habit_suggestion mood t prefs w
    = (inr (mkResult h mood (classify mood) t prefs (clock w')
              (_generate_reasoning mood (classify mood) t
                 (_normalize_preferences prefs) h)), w').
Proof.
  intros Hval Hpool h w' Hsel.
  unfold get_habit_suggestion, selection_pool in *.
  unfold bind, lift. rewrite Hval, Hpool, Hsel. reflexivity.
Qed.

(** C7. A mood whose lower-cased form is not a valid mood makes
    [get_habit_suggestion] raise the invalid-mood [ValueError] with the world
    untouched (nothing was drawn from the random source, so no selection ran),
    and the message contains every valid mood. *)
Theorem invalid_mood_raises mood t prefs w :
  lower mood ∉ valid_moods ->
  get_habit_suggestion mood t prefs w
  = (inl (ValueError (invalid_mood_message mood)), w) /\
  invalid_mood_message mood
  = "Invalid mood: " +:+ mood +:+ ". Valid moods are: "
      +:+ join ", " valid_moods /\
  (forall v, v ∈ valid_moods -> substring_of v (invalid_mood_message mood)).
Proof.
  intros Hm. split; [| split].
  - unfold get_habit_suggestion, bind, lift.
    by rewrite validate_invalid_mood.
  - reflexivity.
  - intros v Hv. unfold invalid_mood_message.
    do 3 apply substring_of_append_l. by apply join_contains.
Qed.

Lemma invalid_mood_raises_witness :
  (lower "Neutral" ∉ valid_moods) /\
  get_habit_suggestion "Neutral" 300 ["Productivity"]
    (mkWorld (fun n => n) 0 "2024-05-01T09:30:00")
  = (inl (ValueError (invalid_mood_message "Neutral")),
     mkWorld (fun n => n) 0 "2024-05-01T09:30:00").
Proof.
  assert (H : lower "Neutral" ∉ valid_moods) by by_compute.
  split; [exact H |].
  exact (proj1 (invalid_mood_raises "Neutral" 300 ["Productivity"]
                  (mkWorld (fun n => n) 0 "2024-05-01T09:30:00") H)).
Defined.

(** C1. For a mood whose lower-cased form is a valid mood, a screen time of at
    least 0 and no preferences, validation passes, the filters produce a
    selection pool, and [get_habit_suggestion] returns a suggestion. *)
Theorem valid_mood_never_raises mood t w :
  lower mood ∈ valid_moods -> (0 <= t)%Z ->
  _validate_inputs mood t [] = inr tt /\
  (exists pool, selection_pool mood t [] = inr pool) /\
  exists r w',
    get_habit_suggestion mood t [] w = (inr r, w') /\
    HabitRecommender.mood r = mood /\ screen_time_minutes r = t /\
    preferences r = [].
Proof.
  intros Hm Ht.
  assert (Hval : _validate_inputs mood t [] = inr tt)
    by (apply validate_ok; [done | done | constructor]).
  destruct (_apply_mood_rules_shape (classify mood)
              (_apply_screen_time_rules t) (_normalize_preferences []))
    as (pool & Hpool & _).
  split; [done |]. split; [by exists pool |].
  destruct (_weighted_random_selection_total pool w) as (h & w' & Hsel).
  eexists _, w'. split.
  - by apply (get_habit_suggestion_run mood t [] pool w Hval Hpool h w').
  - done.
Qed.

Lemma valid_mood_never_raises_witness :
  lower "TIRED" ∈ valid_moods /\ (0 <= 45)%Z /\
  exists r w',
    get_habit_suggestion "TIRED" 45 []
      (mkWorld (fun n => 3 * n + 4) 0 "2024-05-01T09:30:00") = (inr r, w').
Proof.
  assert (Hm : lower "TIRED" ∈ valid_moods) by by_compute.
  assert (Ht : (0 <= 45)%Z) by lia.
  split; [exact Hm |]. split; [exact Ht |].
  destruct (valid_mood_never_raises "TIRED" 45
              (mkWorld (fun n => 3 * n + 4) 0 "2024-05-01T09:30:00") Hm Ht)
    as (_ & _ & r & w' & Hrun & _).
  exists r, w'. exact Hrun.
Defined.

(** ** Concrete calls *)

Lemma validate_stressed_example :
  _validate_inputs "Stressed" 310 ["Relaxation"; "Mindfulness"] = inr tt.
Proof. vm_compute. reflexivity. Qed.

Lemma pool_stressed_example :
  selection_pool "Stressed" 310 ["Relaxation"; "Mindfulness"]
  = inr [ ("relaxation", repeat_list (habits_of "relaxation") 3);
          ("mindfulness", repeat_list (habits_of "mindfulness") 3) ].
Proof. vm_compute. reflexivity. Qed.

Lemma pool_elements_stressed_example :
  Forall (fun h => h ∈ habits_of "relaxation" \/ h ∈ habits_of "mindfulness")
    (flatten [ ("relaxation", repeat_list (habits_of "relaxation") 3);
               ("mindfulness", repeat_list (habits_of "mindfulness") 3) ]).
Proof. by_compute. Qed.

(** C2. For [get_habit_suggestion("Stressed", 310, ["Relaxation",
    "Mindfulness"])] the preference boost first doubles the relaxation and
    mindfulness lists, the affinity boost replaces both by the tripled lists,
    the selection pool holds exactly these two entries, and whatever the
    random source draws the call returns a habit of the relaxation or of the
    mindfulness catalog list. *)
Theorem stressed_example_selects_relaxation_or_mindfulness :
  boost_preferences (_apply_screen_time_rules 310)
    (_normalize_preferences ["Relaxation"; "Mindfulness"]) []
  = inr [ ("relaxation", repeat_list (habits_of "relaxation") 2);
          ("mindfulness", repeat_list (habits_of "mindfulness") 2) ] /\
  selection_pool "Stressed" 310 ["Relaxation"; "Mindfulness"]
  = inr [ ("relaxation", repeat_list (habits_of "relaxation") 3);
          ("mindfulness", repeat_list (habits_of "mindfulness") 3) ] /\
  forall w : World, exists r w',
    get_habit_suggestion "Stressed" 310 ["Relaxation"; "Mindfulness"] w
    = (inr r, w') /\
    (habit r ∈ habits_of "relaxation" \/ habit r ∈ habits_of "mindfulness").
Proof.
  split; [vm_compute; reflexivity |]. split; [exact pool_stressed_example |].
  intros w.
  destruct (_weighted_random_selection_elem
    [ ("relaxation", repeat_list (habits_of "relaxation") 3);
      ("mindfulness", repeat_list (habits_of "mindfulness") 3) ] w)
    as (h & Hin & Hsel); [vm_compute; discriminate |].
  eexists _, _. split.
  - exact (get_habit_suggestion_run _ _ _ _ w validate_stressed_example
             pool_stressed_example h _ Hsel).
  - simpl. exact (proj1 (Forall_forall _ _) pool_elements_stressed_example h Hin).
Qed.

(** The affinity default pool for the negative mood-category. *)
Lemma mood_defaults_negative (fh : catalog) :
  fh = habits \/
  fh = double_categories ["digital_wellbeing"] habits \/
  fh = double_categories ["digital_wellbeing"; "physical_activity"; "nature"]
         habits ->
  _apply_mood_rules (Some "negative") fh []
  = inr (map (fun c => (c, repeat_list (default [] (PyDict.get c fh)) 2))
           ["mindfulness"; "social"; "nature"]) /\
  Forall (fun h => (h ∉ habits_of "productivity") /\
                   (h ∉ habits_of "creative") /\
                   (h ∈ habits_of "mindfulness" \/ h ∈ habits_of "social" \/
                    h ∈ habits_of "nature"))
    (flatten (map (fun c => (c, repeat_list (default [] (PyDict.get c fh)) 2))
                ["mindfulness"; "social"; "nature"])).
Proof.
  intros [-> | [-> | ->]]; (split; [vm_compute; reflexivity | by_compute]).
Qed.

(** C3. With mood "Sad", no preferences and a screen time of at least 0, the
    selection pool is exactly the three affinity categories of the negative
    mood-category (mindfulness, social, nature), each with its list from the
    screen-time-weighted catalog twice over; the habit returned is one of
    theirs and never a productivity or creative habit. *)
Theorem sad_without_preferences_uses_affinity_pool (t : Z) (w : World) :
  (0 <= t)%Z ->
  classify "Sad" = Some "negative" /\
  selection_pool "Sad" t []
  = inr (map (fun c =>
                (c, repeat_list
                      (default [] (PyDict.get c (_apply_screen_time_rules t))) 2))
           ["mindfulness"; "social"; "nature"]) /\
  exists r w',
    get_habit_suggestion "Sad" t [] w = (inr r, w') /\
    (habit r ∉ habits_of "productivity") /\
    (habit r ∉ habits_of "creative") /\
    (habit r ∈ habits_of "mindfulness" \/ habit r ∈ habits_of "social" \/
     habit r ∈ habits_of "nature").
Proof.
  intros Ht. split; [reflexivity |].
  assert (Hval : _validate_inputs "Sad" t [] = inr tt).
  { apply validate_ok; [by_compute | done | constructor]. }
  destruct (mood_defaults_negative (_apply_screen_time_rules t)) as [Hpool Hall].
  { destruct (_apply_screen_time_rules_tiers t) as [[_ ->] | [[_ ->] | [_ ->]]];
      auto. }
  split; [exact Hpool |].
  set (pool := map _ _) in *.
  destruct (_weighted_random_selection_elem pool w) as (h & Hin & Hsel).
  { destruct (_apply_screen_time_rules_tiers t) as [[_ H] | [[_ H] | [_ H]]];
      subst pool; rewrite H; vm_compute; discriminate. }
  eexists _, _. split.
  - exact (get_habit_suggestion_run "Sad" t [] pool w Hval Hpool h _ Hsel).
  - simpl. exact (proj1 (Forall_forall _ _) Hall h Hin).
Qed.

Lemma sad_without_preferences_uses_affinity_pool_witness :
  (0 <= 120)%Z /\
  selection_pool "Sad" 120 []
  = inr (map (fun c =>
                (c, repeat_list
                      (default [] (PyDict.get c (_apply_screen_time_rules 120))) 2))
           ["mindfulness"; "social"; "nature"]).
Proof.
  assert (Ht : (0 <= 120)%Z) by lia.
  split; [exact Ht |].
  exact (proj1 (proj2 (sad_without_preferences_uses_affinity_pool 120
           (mkWorld (fun n => 7 * n + 2) 0 "2024-05-01T09:30:00") Ht))).
Defined.

(** ** The selection pool is never empty *)

Lemma catalog_stocked : stocked habits.
Proof. split; [discriminate | by_compute]. Qed.

Lemma _apply_screen_time_rules_stocked t : stocked (_apply_screen_time_rules t).
Proof.
  destruct (_apply_screen_time_rules_tiers t) as [[_ ->] | [[_ ->] | [_ ->]]];
    (split; [vm_compute; discriminate | by_compute]).
Qed.

Lemma boosted_from_stocked fh r :
  stocked fh -> r <> [] -> Forall (boosted_from fh) r -> stocked r.
Proof.
  intros [_ Hfh] Hne Hr. split; [done |].
  apply Forall_forall. intros kv Hkv.
  destruct (proj1 (Forall_forall _ _) Hr kv Hkv) as (v & n & Hget & -> & Hn).
  apply get_elem_of in Hget.
  destruct (proj1 (Forall_forall _ _) Hfh _ Hget) as [Hv Hall]. simpl in *.
  split.
  - destruct Hn as [-> | ->]; by apply repeat_list_nonempty.
  - apply Forall_forall. intros h Hh. apply elem_of_repeat_list in Hh.
    exact (proj1 (Forall_forall _ _) Hall h Hh).
Qed.

Lemma stocked_flatten d :
  stocked d ->
  flatten d <> [] /\ forall h, h ∈ flatten d -> h ∈ flatten habits.
Proof.
  intros [Hne Hall]. rewrite flatten_concat. split.
  - destruct d as [|[k v] d]; [done |].
    apply Forall_cons in Hall as [[Hv _] _]. simpl in *.
    destruct v; [done | discriminate].
  - intros h Hh. apply list_elem_of_In, in_concat in Hh as (l & Hl & Hh).
    apply list_elem_of_In, list_elem_of_fmap in Hl as ([k v] & -> & Hkv).
    destruct (proj1 (Forall_forall _ _) Hall _ Hkv) as [_ Hv].
    apply (proj1 (Forall_forall _ _) Hv). by apply list_elem_of_In.
Qed.

Lemma flatten_elem_of (d : catalog) h :
  h ∈ flatten d -> exists c l, (c, l) ∈ d /\ h ∈ l.
Proof.
  rewrite flatten_concat. intros Hh.
  apply list_elem_of_In, in_concat in Hh as (l & Hl & Hh).
  apply list_elem_of_In, list_elem_of_fmap in Hl as ([k v] & -> & Hkv).
  exists k, v. split; [done | by apply list_elem_of_In].
Qed.

Lemma fallback_not_in_catalog : fallback_habit ∉ flatten habits.
Proof. by_compute. Qed.

(** C9. On valid input (valid mood, screen time of at least 0, preferences
    that normalise to valid categories) the selection pool flattens to a
    non-empty list, and the habit returned is an element of one of the eight
    catalog lists; it is not the fallback string. *)
Theorem returned_habit_is_catalog_habit mood t prefs w :
  lower mood ∈ valid_moods -> (0 <= t)%Z ->
  Forall (fun p => normalize p ∈ valid_preferences) prefs ->
  length habits = 8 /\
  (exists pool, selection_pool mood t prefs = inr pool /\ flatten pool <> []) /\
  exists r w',
    get_habit_suggestion mood t prefs w = (inr r, w') /\
    (exists c l, (c, l) ∈ habits /\ habit r ∈ l) /\
    habit r <> fallback_habit.
Proof.
  intros Hm Ht Hp. split; [reflexivity |].
  pose proof (validate_ok mood t prefs Hm Ht Hp) as Hval.
  pose proof (_apply_screen_time_rules_stocked t) as Hfh.
  destruct (_apply_mood_rules_shape (classify mood)
              (_apply_screen_time_rules t) (_normalize_preferences prefs))
    as (pool & Hpool & Hshape).
  assert (Hst : stocked pool).
  { destruct Hshape as [-> | [Hne Hb]]; [done |].
    by apply (boosted_from_stocked (_apply_screen_time_rules t)). }
  destruct (stocked_flatten pool Hst) as [Hne Hsub].
  split; [by exists pool |].
  destruct (_weighted_random_selection_elem pool w Hne) as (h & Hin & Hsel).
  eexists _, _. split; [| split].
  - exact (get_habit_suggestion_run mood t prefs pool w Hval Hpool h _ Hsel).
  - simpl. apply flatten_elem_of. by apply Hsub.
  - simpl. intros ->. apply fallback_not_in_catalog. by apply Hsub.
Qed.

Lemma returned_habit_is_catalog_habit_witness :
  lower "Bored" ∈ valid_moods /\ (0 <= 280)%Z /\
  Forall (fun p => normalize p ∈ valid_preferences) ["Creative"; "Social"] /\
  exists r w',
    get_habit_suggestion "Bored" 280 ["Creative"; "Social"]
      (mkWorld (fun n => n + 11) 0 "2024-05-01T09:30:00") = (inr r, w') /\
    habit r <> fallback_habit.
Proof.
  assert (Hm : lower "Bored" ∈ valid_moods) by by_compute.
  assert (Ht : (0 <= 280)%Z) by lia.
  assert (Hp : Forall (fun p => normalize p ∈ valid_preferences)
                 ["Creative"; "Social"]) by by_compute.
  split; [exact Hm |]. split; [exact Ht |]. split; [exact Hp |].
  destruct (returned_habit_is_catalog_habit "Bored" 280 ["Creative"; "Social"]
              (mkWorld (fun n => n + 11) 0 "2024-05-01T09:30:00") Hm Ht Hp)
    as (_ & _ & r & w' & Hrun & _ & Hnf).
  exists r, w'. split; [exact Hrun | exact Hnf].
Defined.

(** ** The object store *)

Import Store.

Lemma preserved_refl h : preserved h h.
Proof. intros a o H. exact H. Qed.

Lemma preserved_trans h1 h2 h3 :
  preserved h1 h2 -> preserved h2 h3 -> preserved h1 h3.
Proof. intros H12 H23 a o H. apply H23, H12, H. Qed.

Lemma preserved_alloc h o : preserved h (h ++ [o]).
Proof. intros a o' H. by apply lookup_app_l_Some. Qed.

Lemma lookup_alloc (h : store) o : (h ++ [o]) !! length h = Some o.
Proof. by apply list_lookup_middle. Qed.

(** Updating an object that the old store does not hold leaves the old
    store's objects alone. *)
Lemma preserved_write h0 (h : store) a o :
  length h0 <= a -> preserved h0 h -> preserved h0 (<[a:=o]> h).
Proof.
  intros Ha Hp b o' Hb. rewrite list_lookup_insert_ne.
  - by apply Hp.
  - apply lookup_lt_Some in Hb. lia.
Qed.

Lemma deref_entry_spec h e kv :
  deref_entry h e = Some kv <-> e.1 = kv.1 /\ h !! e.2 = Some (OList kv.2).
Proof.
  unfold deref_entry. destruct e as [k a], kv as [k' l]. simpl.
  destruct (h !! a) as [[items | entries] |]; split;
    try (intros [= -> ->]; done); try (intros [-> [= ->]]; done);
    intros [? ?]; discriminate.
Qed.

Lemma view_spec h d c :
  view h d = Some c <->
  exists entries, h !! d = Some (ODict entries) /\
    Forall2 (fun e kv => deref_entry h e = Some kv) entries c.
Proof.
  unfold view. split.
  - destruct (h !! d) as [[items | entries] |]; try discriminate.
    intros H. exists entries. split; [done | by apply mapM_Some].
  - intros (entries & -> & H). by apply mapM_Some.
Qed.

Lemma view_preserved h h' d c :
  preserved h h' -> view h d = Some c -> view h' d = Some c.
Proof.
  intros Hp. rewrite !view_spec. intros (entries & Hd & Hall).
  exists entries. split; [by apply Hp |].
  eapply Forall2_impl; [exact Hall |].
  intros e kv. rewrite !deref_entry_spec. intros [? ?]. split; [done | by apply Hp].
Qed.

(** The entries of a dict object and the mapping they denote agree on every
    key. *)
Lemma denoted_get h (entries : PyDict.dict loc) (c : catalog) k :
  Forall2 (fun e kv => deref_entry h e = Some kv) entries c ->
  match PyDict.get k entries with
  | Some a => exists l, PyDict.get k c = Some l /\ h !! a = Some (OList l)
  | None => PyDict.get k c = None
  end.
Proof.
  induction 1 as [|[k1 a1] [k2 l2] entries c H1 Hall IH]; simpl; [done |].
  apply deref_entry_spec in H1 as [Hk Ha]. simpl in *. subst k2.
  case_decide; [eauto | done].
Qed.

Lemma denoted_set h (entries : PyDict.dict loc) (c : catalog) k a l :
  Forall2 (fun e kv => deref_entry h e = Some kv) entries c ->
  h !! a = Some (OList l) ->
  Forall2 (fun e kv => deref_entry h e = Some kv)
    (PyDict.set k a entries) (PyDict.set k l c).
Proof.
  intros Hall Ha.
  induction Hall as [|[k1 a1] [k2 l2] entries c H1 Hall IH]; simpl.
  - constructor; [| constructor]. by apply deref_entry_spec.
  - pose proof H1 as H1'. apply deref_entry_spec in H1' as [Hk _].
    simpl in Hk. subst k2.
    case_decide; constructor; try done. by apply deref_entry_spec.
Qed.

(** One round of the doubling loop on a freshly copied dict [f]: the objects
    of the old store [h0] are untouched, and the copy denotes the mapping
    that the functional filter computes. *)
Lemma double_category_run h0 f category (h : store) entries (c : catalog) :
  length h0 <= f -> preserved h0 h ->
  h !! f = Some (ODict entries) ->
  Forall2 (fun e kv => deref_entry h e = Some kv) entries c ->
  exists h' entries',
    double_category f category h = Some (tt, h') /\
    preserved h0 h' /\
    h' !! f = Some (ODict entries') /\
    Forall2 (fun e kv => deref_entry h' e = Some kv) entries'
      (PyDict.set category
         (repeat_list (default [] (PyDict.get category c)) 2) c).
Proof.
  intros Hf Hp Hd Hall.
  pose proof (lookup_lt_Some _ _ _ Hd) as Hlt.
  set (h1 := h ++ [OList []]).
  set (old := default (length h) (PyDict.get category entries)).
  set (items := default [] (PyDict.get category c)).
  set (h2 := h1 ++ [OList (repeat_list items 2)]).
  set (entries' := PyDict.set category (length h1) entries).
  set (h3 := <[f := ODict entries']> h2).
  assert (Hd1 : h1 !! f = Some (ODict entries)) by by apply lookup_app_l_Some.
  assert (Hd2 : h2 !! f = Some (ODict entries)) by by apply lookup_app_l_Some.
  assert (Hold : h1 !! old = Some (OList items)).
  { subst old items. pose proof (denoted_get h entries c category Hall) as Hg.
    destruct (PyDict.get category entries) as [a|]; simpl.
    - destruct Hg as (l & -> & Ha). simpl. by apply lookup_app_l_Some.
    - rewrite Hg. simpl. apply lookup_alloc. }
  assert (Hrun : double_category f category h = Some (tt, h3)).
  { unfold double_category, new_list, dict_get, list_mul, dict_setitem,
      st_bind, alloc, read_dict, read_list, write, st_ret.
    cbv beta iota. change (h ++ [OList []]) with h1. rewrite Hd1.
    cbv beta iota. change (default (length h) (PyDict.get category entries))
      with old. rewrite Hold.
    cbv beta iota. change (h1 ++ [OList (repeat_list items 2)]) with h2.
    rewrite Hd2. cbv beta iota.
    rewrite decide_True; [reflexivity |].
    subst h2 h1. rewrite !length_app. simpl. lia. }
  exists h3, entries'. split; [exact Hrun |].
  assert (Hp3 : preserved h0 h3).
  { apply preserved_write; [done |].
    eapply preserved_trans; [exact Hp |].
    eapply preserved_trans; apply preserved_alloc. }
  split; [exact Hp3 |]. split.
  - subst h3. apply list_lookup_insert_eq. subst h2 h1.
    rewrite !length_app. simpl. lia.
  - assert (Hkeep : forall a o, a <> f -> h !! a = Some o -> h3 !! a = Some o).
    { intros a o Hne Ha. subst h3. rewrite list_lookup_insert_ne by done.
      subst h2 h1. by do 2 apply lookup_app_l_Some. }
    apply denoted_set.
    + eapply Forall2_impl; [exact Hall |].
      intros e kv. rewrite !deref_entry_spec. intros [? He]. split; [done |].
      apply Hkeep; [| done]. intros Heq. rewrite Heq in He. congruence.
    + subst h3. rewrite list_lookup_insert_ne.
      * subst h2. apply lookup_alloc.
      * subst h1. rewrite length_app. simpl. lia.
Qed.

Lemma for_each_double_run h0 f categories : forall (h : store) entries (c : catalog),
  length h0 <= f -> preserved h0 h ->
  h !! f = Some (ODict entries) ->
  Forall2 (fun e kv => deref_entry h e = Some kv) entries c ->
  exists h' entries',
    for_each categories (double_category f) h = Some (tt, h') /\
    preserved h0 h' /\
    h' !! f = Some (ODict entries') /\
    Forall2 (fun e kv => deref_entry h' e = Some kv) entries'
      (double_categories categories c).
Proof.
  induction categories as [|category categories IH]; intros h entries c Hf Hp Hd Hall.
  - exists h, entries. done.
  - destruct (double_category_run h0 f category h entries c Hf Hp Hd Hall)
      as (h1 & entries1 & Hrun1 & Hp1 & Hd1 & Hall1).
    destruct (IH h1 entries1 _ Hf Hp1 Hd1 Hall1)
      as (h2 & entries2 & Hrun2 & Hp2 & Hd2 & Hall2).
    exists h2, entries2. split; [| done].
    simpl. unfold st_bind at 1. rewrite Hrun1. exact Hrun2.
Qed.

(** C6. The screen-time filter does not mutate the stored catalog. In any
    store where [self.habits] denotes the catalog, the call returns a
    reference to a dict object that did not exist before (so it is not
    [self.habits]); every object of the store before the call, the catalog
    dict and its habit lists among them, is unchanged after it;
    [self.habits] still denotes the catalog; and the returned dict denotes
    the weighted catalog. *)
Theorem screen_time_filter_does_not_mutate_catalog
    (h : store) (self_habits : loc) (t : Z) :
  view h self_habits = Some habits ->
  exists filtered h',
    Store._apply_screen_time_rules self_habits t h = Some (filtered, h') /\
    filtered <> self_habits /\ h !! filtered = None /\
    preserved h h' /\
    view h' self_habits = Some habits /\
    view h' filtered = Some (HabitRecommender._apply_screen_time_rules t).
Proof.
  intros Hview. pose proof Hview as Hv.
  apply view_spec in Hv as (entries & Hd & Hall).
  pose proof (lookup_lt_Some _ _ _ Hd) as Hlt.
  set (f := length h). set (h1 := h ++ [ODict entries]).
  assert (Hp1 : preserved h h1) by apply preserved_alloc.
  assert (Hd1 : h1 !! f = Some (ODict entries)) by apply lookup_alloc.
  assert (Hall1 : Forall2 (fun e kv => deref_entry h1 e = Some kv) entries habits).
  { eapply Forall2_impl; [exact Hall |].
    intros e kv. rewrite !deref_entry_spec. intros [? He].
    split; [done | by apply Hp1]. }
  assert (Hloop : exists h' entries',
    (if (240 <? t)%Z then
       for_each ["digital_wellbeing"; "physical_activity"; "nature"]
         (double_category f)
     else if (120 <? t)%Z then
       for_each ["digital_wellbeing"] (double_category f)
     else st_ret tt) h1 = Some (tt, h') /\
    preserved h h' /\ h' !! f = Some (ODict entries') /\
    Forall2 (fun e kv => deref_entry h' e = Some kv) entries'
      (HabitRecommender._apply_screen_time_rules t)).
  { unfold HabitRecommender._apply_screen_time_rules.
    destruct (240 <? t)%Z; [| destruct (120 <? t)%Z].
    - by apply (for_each_double_run h f _ h1 entries habits).
    - by apply (for_each_double_run h f _ h1 entries habits).
    - exists h1, entries. done. }
  destruct Hloop as (h' & entries' & Hrun & Hp & Hd' & Hall').
  exists f, h'. split; [| split; [| split; [| split; [| split]]]].
  - unfold Store._apply_screen_time_rules, dict_copy, st_bind, read_dict, alloc.
    rewrite Hd. fold f h1. rewrite Hrun. reflexivity.
  - subst f. lia.
  - apply lookup_ge_None. subst f. lia.
  - exact Hp.
  - by apply (view_preserved h h').
  - apply view_spec. exists entries'. done.
Qed.

Lemma screen_time_filter_does_not_mutate_catalog_witness :
  exists h self_habits,
    init_habits [] = Some (self_habits, h) /\
    view h self_habits = Some habits /\
    exists filtered h',
      Store._apply_screen_time_rules self_habits 310 h = Some (filtered, h') /\
      filtered <> self_habits /\
      view h' self_habits = Some habits.
Proof.
  destruct (init_habits []) as [[a h] |] eqn:Hinit; [| discriminate].
  exists h, a. split; [reflexivity |].
  assert (Hview : view h a = Some habits).
  { vm_compute in Hinit. injection Hinit as <- <-. vm_compute. reflexivity. }
  split; [exact Hview |].
  destruct (screen_time_filter_does_not_mutate_catalog h a 310 Hview)
    as (f & h' & Hrun & Hne & _ & _ & Hkept & _).
  exists f, h'. split; [exact Hrun |]. split; [exact Hne | exact Hkept].
Defined.

(** ** Duplicate preferences *)

Lemma set_same {V} k (v : V) d : PyDict.get k d = Some v -> PyDict.set k v d = d.
Proof.
  induction d as [|[k' v'] d IH]; simpl; [discriminate |].
  case_decide as Hk.
  - intros [= ->]. by subst.
  - intros H. by rewrite IH.
Qed.

Lemma same_mapping_empty {V} (d1 d2 : PyDict.dict V) :
  PyDict.same_mapping d1 d2 -> PyDict.is_empty d1 = PyDict.is_empty d2.
Proof.
  intros H. destruct d1 as [|[k1 v1] d1], d2 as [|[k2 v2] d2]; try done.
  - specialize (H k2). simpl in H. by rewrite decide_True in H.
  - specialize (H k1). simpl in H. by rewrite decide_True in H.
Qed.

Lemma elem_of_dedup x seen p : x ∈ dedup seen p <-> x ∈ p /\ x ∉ seen.
Proof.
  revert seen. induction p as [|y p IH]; intros seen; simpl.
  - rewrite elem_of_nil. tauto.
  - case_bool_decide as Hy.
    + rewrite IH, elem_of_cons. split; [tauto |].
      intros [[-> | ?] ?]; tauto.
    + rewrite !elem_of_cons, IH, elem_of_cons.
      destruct (decide (x = y)) as [-> | Hne]; tauto.
Qed.

Lemma NoDup_dedup seen p : NoDup (dedup seen p).
Proof.
  revert seen. induction p as [|y p IH]; intros seen; simpl.
  - constructor.
  - case_bool_decide; [apply IH |].
    constructor; [| apply IH].
    rewrite elem_of_dedup, elem_of_cons. tauto.
Qed.

Lemma for_in_ext {A S} (xs : list A) (body1 body2 : A -> S -> Exc S) s :
  (forall x s0, body1 x s0 = body2 x s0) ->
  for_in xs body1 s = for_in xs body2 s.
Proof.
  intros Hext. revert s. induction xs as [|x xs IH]; intros s; simpl;
    [reflexivity |].
  rewrite Hext. destruct (body2 x s); simpl; [reflexivity | apply IH].
Qed.

(** A loop whose body never raises is a fold. *)
Lemma for_in_fold {A S} (xs : list A) (body : A -> S -> Exc S)
    (step : S -> A -> S) s :
  (forall x s0, body x s0 = inr (step s0 x)) ->
  for_in xs body s = inr (fold_left step xs s).
Proof.
  intros Hb. revert s. induction xs as [|x xs IH]; intros s; simpl;
    [reflexivity |].
  rewrite Hb. simpl. apply IH.
Qed.

(** The preference loop as a fold. *)
Lemma boost_preferences_fold fh prefs result :
  boost_preferences fh prefs result
  = inr (fold_left (boost_step fh 2) prefs result).
Proof.
  unfold boost_preferences. apply for_in_fold.
  intros pref r. unfold PyDict.mem, getitem, boost_step.
  by destruct (PyDict.get pref fh).
Qed.

Lemma boost_fold_dedup (fh : catalog) p : forall seen (r : catalog),
  (forall x v, x ∈ seen -> PyDict.get x fh = Some v ->
               PyDict.get x r = Some (repeat_list v 2)) ->
  fold_left (boost_step fh 2) p r
  = fold_left (boost_step fh 2) (dedup seen p) r.
Proof.
  induction p as [|y p IH]; intros seen r Hseen; simpl; [reflexivity |].
  case_bool_decide as Hy.
  - unfold boost_step at 2.
    destruct (PyDict.get y fh) as [v|] eqn:Hget.
    + rewrite set_same by (by apply Hseen). by apply IH.
    + by apply IH.
  - simpl. apply IH. intros x v Hx Hget. unfold boost_step.
    apply elem_of_cons in Hx as [-> | Hx].
    + rewrite Hget. apply get_set_eq.
    + destruct (PyDict.get y fh) as [vy|] eqn:Hgy; [| by apply Hseen].
      rewrite get_set. case_decide as Hxy; [| by apply Hseen].
      subst. congruence.
Qed.

Lemma boost_preferences_get (fh : catalog) p : forall (r : catalog) k,
  PyDict.get k (fold_left (boost_step fh 2) p r)
  = if bool_decide (k ∈ p) then
      match PyDict.get k fh with
      | Some v => Some (repeat_list v 2)
      | None => PyDict.get k r
      end
    else PyDict.get k r.
Proof.
  induction p as [|y p IH]; intros r k; simpl; [reflexivity |].
  rewrite IH. unfold boost_step. destruct (decide (k = y)) as [-> | Hne].
  - rewrite (bool_decide_true (y ∈ y :: p)) by (apply elem_of_cons; by left).
    destruct (PyDict.get y fh) as [v|] eqn:Hget.
    + rewrite get_set_eq. by case_bool_decide.
    + by case_bool_decide.
  - assert (Hiff : bool_decide (k ∈ y :: p) = bool_decide (k ∈ p)).
    { apply bool_decide_ext. rewrite elem_of_cons. tauto. }
    rewrite Hiff.
    destruct (PyDict.get y fh) as [v|]; [| reflexivity].
    by rewrite get_set_ne by done.
Qed.

(** The affinity loop: it never raises on a mapping of boosted entries, and
    it triples exactly the affinity categories that are preferred and already
    present. *)
Lemma boost_affinity_get fh prefs aff : forall r,
  Forall (boosted_from fh) r ->
  exists r', boost_affinity fh prefs aff r = inr r' /\
    Forall (boosted_from fh) r' /\
    forall k, PyDict.get k r'
      = if bool_decide (k ∈ aff) && bool_decide (k ∈ prefs) && PyDict.mem k r
        then match PyDict.get k fh with
             | Some v => Some (repeat_list v 3)
             | None => None
             end
        else PyDict.get k r.
Proof.
  unfold boost_affinity.
  induction aff as [|x aff IH]; intros r Hr; cbn [for_in].
  - exists r. done.
  - destruct (bool_decide (x ∈ prefs) && PyDict.mem x r) eqn:Hguard.
    + apply andb_true_iff in Hguard as [Hxp Hmem].
      pose proof Hmem as Hmem'. apply mem_get in Hmem' as [old Hold].
      pose proof (get_elem_of _ _ _ Hold) as Hin.
      destruct (proj1 (Forall_forall _ _) Hr _ Hin) as (v & n & Hget & _).
      simpl in Hget. unfold getitem at 1. rewrite Hget. cbn [exc_bind].
      destruct (IH (PyDict.set x (repeat_list v 3) r)) as (r' & -> & Hr' & Hk).
      { apply Forall_set; [| done]. exists v, 3. auto. }
      exists r'. split; [reflexivity |]. split; [done |].
      intros k. rewrite Hk. unfold PyDict.mem. rewrite get_set.
      destruct (decide (x = k)) as [<- | Hne].
      * rewrite Hold, Hget, Hxp.
        rewrite (bool_decide_true (x ∈ x :: aff)) by (apply elem_of_cons; by left).
        simpl. by destruct (bool_decide (x ∈ aff)).
      * assert (Hiff : bool_decide (k ∈ x :: aff) = bool_decide (k ∈ aff)).
        { apply bool_decide_ext. rewrite elem_of_cons.
          split; [intros [? | ?]; [congruence | done] | tauto]. }
        by rewrite Hiff.
    + cbn [exc_bind]. destruct (IH r Hr) as (r' & -> & Hr' & Hk).
      exists r'. split; [reflexivity |]. split; [done |].
      intros k. rewrite Hk.
      destruct (decide (k = x)) as [-> | Hne].
      * rewrite (bool_decide_true (x ∈ x :: aff)) by (apply elem_of_cons; by left).
        simpl. rewrite Hguard.
        destruct (bool_decide (x ∈ aff)); simpl; [by rewrite Hguard | done].
      * assert (Hiff : bool_decide (k ∈ x :: aff) = bool_decide (k ∈ aff)).
        { apply bool_decide_ext. rewrite elem_of_cons.
          split; [intros [? | ?]; [congruence | done] | tauto]. }
        by rewrite Hiff.
Qed.

Lemma boost_affinity_ext fh p q aff r :
  (forall x, x ∈ q <-> x ∈ p) ->
  boost_affinity fh p aff r = boost_affinity fh q aff r.
Proof.
  intros Hpq. unfold boost_affinity. apply for_in_ext. intros x s.
  assert (bool_decide (x ∈ p) = bool_decide (x ∈ q)) as ->; [| reflexivity].
  apply bool_decide_ext. by rewrite Hpq.
Qed.

(** What the [if preferences:] block leaves in [result_habits]: the preferred
    categories that the incoming catalog has, tripled when the mood-category
    has affinity with them and doubled otherwise, whatever the order and the
    multiplicity of the preferences. *)
Lemma preferred_habits_get mc fh p :
  exists r, preferred_habits mc fh p [] = inr r /\
    Forall (boosted_from fh) r /\
    forall k, PyDict.get k r
      = if bool_decide (k ∈ p) then
          match PyDict.get k fh with
          | Some v =>
              Some (repeat_list v
                      (if bool_decide (k ∈ default [] (affinity_of mc))
                       then 3 else 2))
          | None => None
          end
        else None.
Proof.
  unfold preferred_habits. destruct p as [|x p]; [by exists [] |].
  rewrite boost_preferences_fold. cbn [exc_bind].
  set (r1 := fold_left (boost_step fh 2) (x :: p) []).
  assert (Hr1 : Forall (boosted_from fh) r1).
  { destruct (boost_preferences_shape fh (x :: p) []) as (r & Hr & Hall);
      [constructor |].
    rewrite boost_preferences_fold in Hr. injection Hr as <-. exact Hall. }
  assert (Hg1 : forall k, PyDict.get k r1
    = if bool_decide (k ∈ x :: p) then
        match PyDict.get k fh with
        | Some v => Some (repeat_list v 2)
        | None => None
        end
      else None).
  { intros k. subst r1. rewrite boost_preferences_get. reflexivity. }
  destruct (affinity_of mc) as [aff|]; cbn [from_option id].
  - destruct (boost_affinity_get fh (x :: p) aff r1 Hr1) as (r2 & -> & Hr2 & Hg2).
    exists r2. split; [reflexivity |]. split; [done |].
    intros k. rewrite Hg2. unfold PyDict.mem. rewrite Hg1.
    destruct (bool_decide (k ∈ x :: p)), (bool_decide (k ∈ aff)),
      (PyDict.get k fh); reflexivity.
  - exists r1. split; [reflexivity |]. split; [done |].
    intros k. rewrite Hg1.
    rewrite (bool_decide_false (k ∈ [])) by apply not_elem_of_nil. reflexivity.
Qed.

Lemma preferred_habits_dedup mc fh p :
  preferred_habits mc fh p [] = preferred_habits mc fh (without_duplicates p) [].
Proof.
  unfold preferred_habits, without_duplicates.
  destruct p as [|x p]; [reflexivity |].
  assert (Hd : dedup [] (x :: p) = x :: dedup [x] p).
  { reflexivity. }
  rewrite Hd, <- Hd.
  rewrite !boost_preferences_fold.
  rewrite <- (boost_fold_dedup fh (x :: p) [] []).
  - cbn [exc_bind]. destruct (affinity_of mc) as [aff|]; [| reflexivity].
    apply boost_affinity_ext. intros y. rewrite elem_of_dedup.
    split; [tauto |]. intros Hy. split; [done | apply not_elem_of_nil].
  - intros y v Hy. by apply elem_of_nil in Hy.
Qed.

(** C10. Duplicate preferences do not stack weight. The filter returns the
    same mapping, entry for entry and in the same order, for a preference
    list and for that list with its duplicates removed; more generally two
    preference lists with the same members give equal mappings. In a result
    that the filter built itself every list is a list of the incoming catalog
    two or three times over, and a preferred category that the catalog has
    gets exactly three copies when the mood-category has affinity with it
    and exactly two otherwise. *)
Theorem duplicate_preferences_do_not_stack
    (mc : option string) (fh : catalog) (p : list string) :
  (NoDup (without_duplicates p) /\
   forall x, x ∈ without_duplicates p <-> x ∈ p) /\
  _apply_mood_rules mc fh p = _apply_mood_rules mc fh (without_duplicates p) /\
  (forall q, (forall x, x ∈ q <-> x ∈ p) ->
     exists r r', _apply_mood_rules mc fh p = inr r /\
                  _apply_mood_rules mc fh q = inr r' /\
                  PyDict.same_mapping r r') /\
  exists r, _apply_mood_rules mc fh p = inr r /\
    (r = fh \/ Forall (boosted_from fh) r) /\
    forall k v, k ∈ p -> PyDict.get k fh = Some v ->
      PyDict.get k r
      = Some (repeat_list v
                (if bool_decide (k ∈ default [] (affinity_of mc))
                 then 3 else 2)).
Proof.
  split; [| split; [| split]].
  - split; [apply NoDup_dedup |].
    intros x. unfold without_duplicates. rewrite elem_of_dedup.
    split; [tauto |]. intros Hx. split; [done | apply not_elem_of_nil].
  - unfold _apply_mood_rules. cbv zeta. by rewrite preferred_habits_dedup.
  - intros q Hq.
    destruct (preferred_habits_get mc fh p) as (r1 & Hr1 & Hall1 & Hg1).
    destruct (preferred_habits_get mc fh q) as (r2 & Hr2 & Hall2 & Hg2).
    assert (Hsame : PyDict.same_mapping r1 r2).
    { intros k. rewrite Hg1, Hg2.
      assert (bool_decide (k ∈ p) = bool_decide (k ∈ q)) as ->; [| reflexivity].
      apply bool_decide_ext. by rewrite Hq. }
    pose proof (same_mapping_empty r1 r2 Hsame) as Hempty.
    unfold _apply_mood_rules. cbv zeta. rewrite Hr1, Hr2. cbn [exc_bind].
    unfold or_mood_defaults. rewrite <- Hempty.
    destruct r1 as [|e1 r1].
    + destruct r2 as [|e2 r2]; [| discriminate]. cbn [PyDict.is_empty].
      destruct (affinity_of mc) as [aff|]; cbn [exc_bind PyDict.is_empty].
      * destruct (mood_defaults_shape fh aff []) as (r & -> & _); [constructor |].
        cbn [exc_bind]. destruct (PyDict.is_empty r); by eexists _, _.
      * by eexists _, _.
    + destruct r2 as [|e2 r2]; [discriminate |].
      cbn [exc_bind PyDict.is_empty]. by eexists _, _.
  - destruct (preferred_habits_get mc fh p) as (r1 & Hr1 & Hall1 & Hg1).
    destruct (_apply_mood_rules_shape mc fh p) as (r & Hr & Hshape).
    exists r. split; [done |]. split; [tauto |].
    intros k v Hk Hget.
    assert (Hk1 : PyDict.get k r1
      = Some (repeat_list v
                (if bool_decide (k ∈ default [] (affinity_of mc))
                 then 3 else 2))).
    { rewrite Hg1, Hget. by rewrite bool_decide_true. }
    unfold _apply_mood_rules in Hr. cbv zeta in Hr.
    rewrite Hr1 in Hr. cbn [exc_bind] in Hr. unfold or_mood_defaults in Hr.
    destruct r1 as [|e1 r1]; [discriminate |].
    cbn [exc_bind PyDict.is_empty] in Hr. injection Hr as <-. exact Hk1.
Qed.

(** * Further properties of the engine *)

Import HabitRecommender.

(** ** Validation: what is rejected, and in which order *)

Lemma run_of_validation_error mood t prefs e w :
  _validate_inputs mood t prefs = inl e ->
  get_habit_suggestion mood t prefs w = (inl e, w).
Proof.
  intros Hval. unfold get_habit_suggestion, bind, lift. by rewrite Hval.
Qed.

Lemma run_of_validation_success mood t prefs w :
  _validate_inputs mood t prefs = inr tt ->
  exists pool h,
    selection_pool mood t prefs = inr pool /\
    _weighted_random_selection pool w
    = (inr h, if decide (flatten pool = []) then w
              else mkWorld (entropy w) (S (cursor w)) (clock w)) /\
    get_habit_suggestion mood t prefs w
    = (inr (mkResult h mood (classify mood) t prefs (clock w)
              (_generate_reasoning mood (classify mood) t
                 (_normalize_preferences prefs) h)),
       if decide (flatten pool = []) then w
       else mkWorld (entropy w) (S (cursor w)) (clock w)).
Proof.
  intros Hval.
  destruct (_apply_mood_rules_shape (classify mood)
              (_apply_screen_time_rules t) (_normalize_preferences prefs))
    as (pool & Hpool & _).
  exists pool.
  assert (Hsel : exists h, _weighted_random_selection pool w
    = (inr h, if decide (flatten pool = []) then w
              else mkWorld (entropy w) (S (cursor w)) (clock w))).
  { case_decide as Hfl.
    - unfold _weighted_random_selection. rewrite Hfl. by eexists.
    - destruct (_weighted_random_selection_elem pool w Hfl) as (h & _ & ->).
      by eexists. }
  destruct Hsel as (h & Hsel). exists h. split; [done |]. split; [done |].
  rewrite (get_habit_suggestion_run mood t prefs pool w Hval Hpool h _ Hsel).
  by case_decide.
Qed.

Lemma validate_negative_screen_time mood t prefs :
  lower mood ∈ valid_moods -> (t < 0)%Z ->
  _validate_inputs mood t prefs
  = inl (ValueError "Screen time must be a positive number of minutes").
Proof.
  intros Hm Ht. unfold _validate_inputs.
  rewrite bool_decide_true by done. simpl.
  by destruct (Z.ltb_spec t 0); [| lia].
Qed.

Lemma validate_preferences_loop_first_bad ok bad rest :
  Forall (fun p => p ∈ valid_preferences) ok -> bad ∉ valid_preferences ->
  for_in (ok ++ bad :: rest)
    (fun pref (_ : unit) =>
       if negb (bool_decide (pref ∈ valid_preferences)) then
         inl (ValueError (invalid_preference_message pref))
       else inr tt) tt
  = inl (ValueError (invalid_preference_message bad)).
Proof.
  intros Hok Hbad. induction Hok as [|p ok Hp Hok IH]; simpl.
  - by rewrite bool_decide_false.
  - by rewrite bool_decide_true.
Qed.

Lemma validate_first_invalid_preference mood t ok bad rest :
  lower mood ∈ valid_moods -> (0 <= t)%Z ->
  Forall (fun p => normalize p ∈ valid_preferences) ok ->
  normalize bad ∉ valid_preferences ->
  _validate_inputs mood t (ok ++ bad :: rest)
  = inl (ValueError (invalid_preference_message (normalize bad))).
Proof.
  intros Hm Ht Hok Hbad. unfold _validate_inputs.
  rewrite bool_decide_true by done. simpl.
  destruct (Z.ltb_spec t 0); [lia |].
  rewrite _normalize_preferences_map, map_app. simpl.
  apply validate_preferences_loop_first_bad; [| done].
  by apply Forall_map.
Qed.

(** A string that normalisation cannot resolve to a valid category is left
    as the caller wrote it. *)
Lemma normalize_invalid_unchanged x :
  normalize x ∉ valid_preferences -> normalize x = x.
Proof.
  unfold normalize.
  destruct (PyDict.get (lower x) display_to_internal) as [k|] eqn:Hget.
  - intros Hk. exfalso. apply Hk. apply get_elem_of in Hget.
    assert (Hvals : Forall (fun kv : string * string => kv.2 ∈ valid_preferences)
                      display_to_internal) by by_compute.
    exact (proj1 (Forall_forall _ _) Hvals _ Hget).
  - case_bool_decide; [done | reflexivity].
Qed.

(** A list either has only elements with a property or splits at its first
    element without it. *)
Lemma first_without {A} (P : A -> Prop) `{!forall x, Decision (P x)} (l : list A) :
  Forall P l \/
  exists ok bad rest, l = ok ++ bad :: rest /\ Forall P ok /\ ~ P bad.
Proof.
  induction l as [|x l IH]; [left; constructor |].
  destruct (decide (P x)) as [Hx | Hx].
  - destruct IH as [Hall | (ok & bad & rest & -> & Hok & Hbad)].
    + left. by constructor.
    + right. exists (x :: ok), bad, rest. split; [done |].
      split; [by constructor | done].
  - right. exists [], x, l. split; [done |]. split; [constructor | done].
Qed.

(** The outcome of validation, case by case. *)
Lemma validate_cases mood t prefs :
  (_validate_inputs mood t prefs = inr tt /\
   lower mood ∈ valid_moods /\ (0 <= t)%Z /\
   Forall (fun p => normalize p ∈ valid_preferences) prefs) \/
  ((exists msg, _validate_inputs mood t prefs = inl (ValueError msg)) /\
   ~ (lower mood ∈ valid_moods /\ (0 <= t)%Z /\
      Forall (fun p => normalize p ∈ valid_preferences) prefs)).
Proof.
  destruct (decide (lower mood ∈ valid_moods)) as [Hm | Hm].
  2:{ right. split; [| tauto]. eexists. by apply validate_invalid_mood. }
  destruct (Z.lt_ge_cases t 0) as [Ht | Ht].
  { right. split; [| lia]. eexists. by apply validate_negative_screen_time. }
  destruct (first_without (fun p => normalize p ∈ valid_preferences) prefs)
    as [Hall | (ok & bad & rest & -> & Hok & Hbad)].
  - left. split; [by apply validate_ok | done].
  - right. split.
    + eexists. by apply validate_first_invalid_preference.
    + intros (_ & _ & Hall). apply Forall_app in Hall as [_ Hall].
      apply Forall_cons in Hall as [? _]. done.
Qed.

Lemma run_of_negative_screen_time mood t prefs w :
  lower mood ∈ valid_moods -> (t < 0)%Z ->
  get_habit_suggestion mood t prefs w
  = (inl (ValueError "Screen time must be a positive number of minutes"), w).
Proof.
  intros Hm Ht. apply run_of_validation_error.
  by apply validate_negative_screen_time.
Qed.

(** X1. A negative screen time is rejected with the screen-time
    [ValueError] whenever the mood is valid, whatever the preferences are
    (they are not looked at), and nothing is drawn from the random source. *)
Theorem negative_screen_time_raises mood t prefs w :
  lower mood ∈ valid_moods -> (t < 0)%Z ->
  get_habit_suggestion mood t prefs w
  = (inl (ValueError "Screen time must be a positive number of minutes"), w).
Proof.
  intros Hm Ht. apply run_of_validation_error.
  by apply validate_negative_screen_time.
Qed.

Lemma negative_screen_time_raises_witness :
  lower "Happy" ∈ valid_moods /\ (-10 < 0)%Z /\
  get_habit_suggestion "Happy" (-10) ["Relaxation"; "no such category"]
    (mkWorld (fun n => n) 0 "2024-05-01T09:30:00")
  = (inl (ValueError "Screen time must be a positive number of minutes"),
     mkWorld (fun n => n) 0 "2024-05-01T09:30:00").
Proof.
  assert (Hm : lower "Happy" ∈ valid_moods) by by_compute.
  assert (Ht : (-10 < 0)%Z) by lia.
  split; [exact Hm |]. split; [exact Ht |].
  exact (negative_screen_time_raises "Happy" (-10)
           ["Relaxation"; "no such category"]
           (mkWorld (fun n => n) 0 "2024-05-01T09:30:00") Hm Ht).
Defined.

(** X2. With a valid mood and a screen time of at least 0, the first
    preference (in list order) that does not normalise to a valid category is
    the one the [ValueError] names, spelled as the caller wrote it, followed
    by the list of valid categories; later entries are not reported and
    nothing is drawn from the random source. *)
Theorem first_invalid_preference_raises mood t ok bad rest w :
  lower mood ∈ valid_moods -> (0 <= t)%Z ->
  Forall (fun p => normalize p ∈ valid_preferences) ok ->
  normalize bad ∉ valid_preferences ->
  get_habit_suggestion mood t (ok ++ bad :: rest) w
  = (inl (ValueError
            ("Invalid preference: " +:+ bad +:+ ". Valid preferences are: "
               +:+ join ", " valid_preferences)), w).
Proof.
  intros Hm Ht Hok Hbad. apply run_of_validation_error.
  rewrite (validate_first_invalid_preference mood t ok bad rest Hm Ht Hok Hbad).
  by rewrite (normalize_invalid_unchanged bad Hbad).
Qed.

Lemma first_invalid_preference_raises_witness :
  lower "Happy" ∈ valid_moods /\ (0 <= 100)%Z /\
  Forall (fun p => normalize p ∈ valid_preferences) ["Nature"] /\
  (normalize "Gaming" ∉ valid_preferences) /\
  get_habit_suggestion "Happy" 100 (["Nature"] ++ "Gaming" :: ["Chess"])
    (mkWorld (fun n => n) 0 "2024-05-01T09:30:00")
  = (inl (ValueError
            ("Invalid preference: " +:+ "Gaming" +:+ ". Valid preferences are: "
               +:+ join ", " valid_preferences)),
     mkWorld (fun n => n) 0 "2024-05-01T09:30:00").
Proof.
  assert (Hm : lower "Happy" ∈ valid_moods) by by_compute.
  assert (Ht : (0 <= 100)%Z) by lia.
  assert (Hok : Forall (fun p => normalize p ∈ valid_preferences) ["Nature"])
    by by_compute.
  assert (Hbad : normalize "Gaming" ∉ valid_preferences) by by_compute.
  split; [exact Hm |]. split; [exact Ht |]. split; [exact Hok |].
  split; [exact Hbad |].
  exact (first_invalid_preference_raises "Happy" 100 ["Nature"] "Gaming"
           ["Chess"] (mkWorld (fun n => n) 0 "2024-05-01T09:30:00")
           Hm Ht Hok Hbad).
Defined.


(** ** Preference names *)

Lemma display_names_resolve :
  Forall (fun kd : string * string =>
            PyDict.get (lower kd.2) display_to_internal = Some kd.1 /\
            kd.1 ∈ valid_preferences /\
            (PyDict.get kd.1 display_to_internal = Some kd.1 \/
             PyDict.get kd.1 display_to_internal = None))
         preference_display_names.
Proof. by_compute. Qed.

Lemma display_to_internal_from_table :
  Forall (fun e : string * string =>
            Exists (fun kd : string * string =>
                      kd.1 = e.2 /\ lower kd.2 = e.1)
                   preference_display_names)
         display_to_internal.
Proof. by_compute. Qed.

Lemma valid_preferences_have_display_names :
  Forall (fun k => Exists (fun kd : string * string => kd.1 = k)
                     preference_display_names /\ lower k = k)
         valid_preferences.
Proof. by_compute. Qed.

(** X4. Normalisation resolves both spellings of a category, in any letter
    case: a string whose lower-casing is the lower-cased display name or the
    canonical key of a table entry normalises to that entry's key, which is a
    valid preference. Conversely a string is accepted (normalises to a valid
    preference) only if it is, up to letter case, the display name or the key
    of the entry it normalises to. *)
Theorem normalize_resolves_both_spellings :
  (forall k d x, (k, d) ∈ preference_display_names ->
     lower x = lower d \/ lower x = k ->
     normalize x = k /\ k ∈ valid_preferences) /\
  (forall x, normalize x ∈ valid_preferences ->
     exists d, (normalize x, d) ∈ preference_display_names /\
               (lower x = lower d \/ lower x = normalize x)).
Proof.
  split.
  - intros k d x Hkd Hx.
    destruct (proj1 (Forall_forall _ _) display_names_resolve _ Hkd)
      as (Hd & Hk & Hself). cbn [fst snd] in *.
    split; [| done]. unfold normalize. destruct Hx as [-> | ->].
    + by rewrite Hd.
    + destruct Hself as [-> | ->]; [done |]. by rewrite bool_decide_true.
  - intros x. unfold normalize.
    destruct (PyDict.get (lower x) display_to_internal) as [k|] eqn:Hget.
    + intros _. apply get_elem_of in Hget.
      pose proof (proj1 (Forall_forall _ _) display_to_internal_from_table
                    _ Hget) as Hex.
      apply Exists_exists in Hex as ([k' d] & Hin & Hk & Hd). cbn [fst snd] in *.
      subst k'. exists d. split; [done |]. left. by symmetry.
    + case_bool_decide as Hlow.
      * intros _.
        destruct (proj1 (Forall_forall _ _) valid_preferences_have_display_names
                    _ Hlow) as [Hex _].
        apply Exists_exists in Hex as ([k' d] & Hin & Hk). cbn [fst snd] in *.
        subst k'. exists d. split; [done |]. by right.
      * intros Hx. exfalso. apply Hlow.
        destruct (proj1 (Forall_forall _ _) valid_preferences_have_display_names
                    _ Hx) as [_ ->]. done.
Qed.

(** ** The selection pool on valid input *)

Lemma valid_input_pool mood t prefs :
  exists pool, selection_pool mood t prefs = inr pool /\ stocked pool /\
    (pool = _apply_screen_time_rules t \/
     (pool <> [] /\ Forall (boosted_from (_apply_screen_time_rules t)) pool)).
Proof.
  pose proof (_apply_screen_time_rules_stocked t) as Hfh.
  destruct (_apply_mood_rules_shape (classify mood)
              (_apply_screen_time_rules t) (_normalize_preferences prefs))
    as (pool & Hpool & Hshape).
  exists pool. split; [done |]. split; [| done].
  destruct Hshape as [-> | [Hne Hb]]; [done |].
  by apply (boosted_from_stocked (_apply_screen_time_rules t)).
Qed.



(** ** Which categories the selection pool holds *)

Lemma mem_keys {V} k (d : PyDict.dict V) :
  PyDict.mem k d = true <-> k ∈ PyDict.keys d.
Proof.
  unfold PyDict.mem, PyDict.keys.
  induction d as [|[k' v] d IH]; simpl.
  - split; [done | intros H; by apply elem_of_nil in H].
  - rewrite elem_of_cons. case_decide; [tauto |].
    rewrite IH. split; [tauto |]. intros [? | ?]; [done | tauto].
Qed.

Lemma get_None_keys {V} k (d : PyDict.dict V) :
  PyDict.get k d = None <-> k ∉ PyDict.keys d.
Proof.
  rewrite <- mem_keys. unfold PyDict.mem.
  destruct (PyDict.get k d); split; try done; intros H; by destruct H.
Qed.

Lemma keys_set {V} k (v : V) d :
  PyDict.keys (PyDict.set k v d)
  = if PyDict.mem k d then PyDict.keys d else PyDict.keys d ++ [k].
Proof.
  unfold PyDict.mem, PyDict.keys.
  induction d as [|[k' v'] d IH]; csimpl; [reflexivity |].
  case_decide as Hk; csimpl.
  - by subst.
  - rewrite IH. by destruct (PyDict.get k d).
Qed.

Lemma dedup_seen_ext p : forall s1 s2,
  (forall x, x ∈ s1 <-> x ∈ s2) -> dedup s1 p = dedup s2 p.
Proof.
  induction p as [|y p IH]; intros s1 s2 Hs; simpl; [reflexivity |].
  rewrite (bool_decide_ext (y ∈ s1) (y ∈ s2)) by apply Hs.
  case_bool_decide; [by apply IH |].
  f_equal. apply IH. intros x. rewrite !elem_of_cons, Hs. tauto.
Qed.

Lemma keys_boost_fold (fh : catalog) n p : forall r : catalog,
  PyDict.keys (fold_left (boost_step fh n) p r)
  = PyDict.keys r ++ dedup (PyDict.keys r) (present_in fh p).
Proof.
  unfold present_in.
  induction p as [|x p IH]; intros r; simpl.
  - by rewrite app_nil_r.
  - rewrite IH, filter_cons.
    destruct (PyDict.get x fh) as [v|] eqn:Hget.
    + assert (Hstep : boost_step fh n r x = PyDict.set x (repeat_list v n) r)
        by (unfold boost_step; by rewrite Hget).
      rewrite Hstep, keys_set.
      rewrite decide_True by (apply mem_keys; unfold PyDict.mem; by rewrite Hget).
      simpl. destruct (PyDict.mem x r) eqn:Hmem.
      * rewrite bool_decide_true by by apply mem_keys. reflexivity.
      * rewrite bool_decide_false
          by (rewrite <- mem_keys; by rewrite Hmem).
        rewrite <- app_assoc. simpl. do 2 f_equal.
        apply dedup_seen_ext. intros y.
        rewrite elem_of_app, !elem_of_cons, elem_of_nil. tauto.
    + assert (Hstep : boost_step fh n r x = r)
        by (unfold boost_step; by rewrite Hget).
      rewrite Hstep.
      rewrite decide_False by by apply get_None_keys. reflexivity.
Qed.

Lemma boost_affinity_keys fh prefs aff : forall r,
  Forall (boosted_from fh) r ->
  exists r', boost_affinity fh prefs aff r = inr r' /\
             PyDict.keys r' = PyDict.keys r.
Proof.
  unfold boost_affinity.
  induction aff as [|x aff IH]; intros r Hr; cbn [for_in].
  - by exists r.
  - destruct (bool_decide (x ∈ prefs) && PyDict.mem x r) eqn:Hguard;
      cbn [exc_bind]; [| by apply IH].
    apply andb_true_iff in Hguard as [_ Hmem].
    pose proof Hmem as Hmem'. apply mem_get in Hmem' as [old Hold].
    pose proof (get_elem_of _ _ _ Hold) as Hin.
    destruct (proj1 (Forall_forall _ _) Hr _ Hin) as (v & n & Hget & _).
    simpl in Hget. unfold getitem at 1. rewrite Hget. cbn [exc_bind].
    destruct (IH (PyDict.set x (repeat_list v 3) r)) as (r' & -> & Hk).
    { apply Forall_set; [| done]. exists v, 3. auto. }
    exists r'. split; [reflexivity |]. rewrite Hk, keys_set. by rewrite Hmem.
Qed.

Lemma mood_defaults_fold fh aff result :
  mood_defaults fh aff result = inr (fold_left (boost_step fh 2) aff result).
Proof. apply boost_preferences_fold. Qed.

(** The categories left by the [if preferences:] block: the preferences that
    the incoming catalog has, each once, in order of first mention. *)
Lemma preferred_habits_keys mc fh p :
  exists r, preferred_habits mc fh p [] = inr r /\
            PyDict.keys r = dedup [] (present_in fh p).
Proof.
  unfold preferred_habits. destruct p as [|x p]; [by exists [] |].
  rewrite boost_preferences_fold. cbn [exc_bind].
  pose proof (keys_boost_fold fh 2 (x :: p) []) as Hkeys.
  destruct (affinity_of mc) as [aff|]; [| by eexists].
  destruct (boost_affinity_keys fh (x :: p) aff
              (fold_left (boost_step fh 2) (x :: p) [])) as (r & -> & Hk).
  { destruct (boost_preferences_shape fh (x :: p) []) as (r & Hr & Hall);
      [constructor |].
    rewrite boost_preferences_fold in Hr. by injection Hr as <-. }
  exists r. split; [reflexivity |]. by rewrite Hk, Hkeys.
Qed.

Lemma present_in_nil fh p :
  present_in fh p = [] <-> ~ Exists (fun k => k ∈ PyDict.keys fh) p.
Proof.
  unfold present_in. induction p as [|x p IH].
  - split; [intros _ H; by apply Exists_nil in H | done].
  - rewrite filter_cons, Exists_cons. case_decide; [| tauto].
    split; [discriminate | tauto].
Qed.

Lemma dedup_nil p : dedup [] p = [] <-> p = [].
Proof. destruct p; [done |]. split; discriminate. Qed.

Lemma keys_nil {V} (d : PyDict.dict V) : PyDict.keys d = [] <-> d = [].
Proof. destruct d; [done |]. split; discriminate. Qed.

Lemma mood_rules_matched mc fh p :
  Exists (fun k => k ∈ PyDict.keys fh) p ->
  exists r, _apply_mood_rules mc fh p = inr r /\
    PyDict.keys r = dedup [] (present_in fh p) /\
    Forall (boosted_from fh) r /\
    forall k, PyDict.get k r
      = if bool_decide (k ∈ p) then
          match PyDict.get k fh with
          | Some v =>
              Some (repeat_list v
                      (if bool_decide (k ∈ default [] (affinity_of mc))
                       then 3 else 2))
          | None => None
          end
        else None.
Proof.
  intros Hex.
  destruct (preferred_habits_keys mc fh p) as (r1 & Hr1 & Hk1).
  destruct (preferred_habits_get mc fh p) as (r1' & Hr1' & Hall & Hg1).
  rewrite Hr1 in Hr1'. injection Hr1' as <-.
  exists r1. split; [| done].
  assert (Hne : r1 <> []).
  { intros Hnil. apply keys_nil in Hnil. rewrite Hk1 in Hnil.
    apply dedup_nil, present_in_nil in Hnil. done. }
  unfold _apply_mood_rules. cbv zeta. rewrite Hr1. cbn [exc_bind].
  unfold or_mood_defaults. destruct r1; [done |]. reflexivity.
Qed.

Lemma preferred_habits_unmatched mc fh p :
  ~ Exists (fun k => k ∈ PyDict.keys fh) p ->
  preferred_habits mc fh p [] = inr [].
Proof.
  intros Hno. destruct (preferred_habits_keys mc fh p) as (r1 & -> & Hk1).
  f_equal. apply keys_nil. rewrite Hk1. apply dedup_nil.
  by apply present_in_nil.
Qed.

Lemma mood_rules_defaults mc fh p aff :
  ~ Exists (fun k => k ∈ PyDict.keys fh) p ->
  affinity_of mc = Some aff ->
  Exists (fun k => k ∈ PyDict.keys fh) aff ->
  _apply_mood_rules mc fh p = inr (fold_left (boost_step fh 2) aff []) /\
  fold_left (boost_step fh 2) aff [] <> [].
Proof.
  intros Hno Haff Hex.
  assert (Hne : fold_left (boost_step fh 2) aff [] <> []).
  { intros Hnil. apply keys_nil in Hnil. rewrite keys_boost_fold in Hnil.
    simpl in Hnil. apply dedup_nil, present_in_nil in Hnil. done. }
  split; [| done].
  unfold _apply_mood_rules. cbv zeta.
  rewrite (preferred_habits_unmatched mc fh p Hno). cbn [exc_bind].
  unfold or_mood_defaults. cbn [PyDict.is_empty]. rewrite Haff.
  rewrite mood_defaults_fold. cbn [exc_bind].
  destruct (fold_left (boost_step fh 2) aff []); [done |]. reflexivity.
Qed.

Lemma mood_rules_fallback mc fh p :
  ~ Exists (fun k => k ∈ PyDict.keys fh) p ->
  affinity_of mc = None \/
  (exists aff, affinity_of mc = Some aff /\
               ~ Exists (fun k => k ∈ PyDict.keys fh) aff) ->
  _apply_mood_rules mc fh p = inr fh.
Proof.
  intros Hno Haff.
  unfold _apply_mood_rules. cbv zeta.
  rewrite (preferred_habits_unmatched mc fh p Hno). cbn [exc_bind].
  unfold or_mood_defaults. cbn [PyDict.is_empty].
  destruct Haff as [-> | (aff & -> & Hnoaff)]; [reflexivity |].
  rewrite mood_defaults_fold. cbn [exc_bind].
  assert (Hnil : fold_left (boost_step fh 2) aff [] = []).
  { apply keys_nil. rewrite keys_boost_fold. simpl. apply dedup_nil.
    by apply present_in_nil. }
  rewrite Hnil. reflexivity.
Qed.

(** X6. The mood/preference filter, case by case, for any incoming catalog.
    When some preference is a category of the catalog, the result holds
    exactly the preferred categories that the catalog has, each once in order
    of first mention, and no other category. When none is and the
    mood-category has affinity categories of which the catalog has some, the
    result holds exactly those, each list doubled. Otherwise (no
    mood-category, or none of its affinity categories in the catalog) the
    result is the incoming catalog itself. *)
Theorem mood_rules_case_by_case (mc : option string) (fh : catalog)
    (p : list string) :
  (Exists (fun k => k ∈ PyDict.keys fh) p ->
   exists r, _apply_mood_rules mc fh p = inr r /\
     PyDict.keys r = dedup [] (present_in fh p) /\
     forall k, k ∉ p -> PyDict.get k r = None) /\
  (~ Exists (fun k => k ∈ PyDict.keys fh) p ->
   forall aff, affinity_of mc = Some aff ->
     Exists (fun k => k ∈ PyDict.keys fh) aff ->
     exists r, _apply_mood_rules mc fh p = inr r /\
       PyDict.keys r = dedup [] (present_in fh aff) /\
       forall k, PyDict.get k r
         = if bool_decide (k ∈ aff) then
             match PyDict.get k fh with
             | Some v => Some (repeat_list v 2)
             | None => None
             end
           else None) /\
  (~ Exists (fun k => k ∈ PyDict.keys fh) p ->
   affinity_of mc = None \/
   (exists aff, affinity_of mc = Some aff /\
                ~ Exists (fun k => k ∈ PyDict.keys fh) aff) ->
   _apply_mood_rules mc fh p = inr fh).
Proof.
  split; [| split].
  - intros Hex.
    destruct (mood_rules_matched mc fh p Hex) as (r & Hr & Hk & _ & Hg).
    exists r. split; [done |]. split; [done |].
    intros k Hk'. rewrite Hg. by rewrite bool_decide_false.
  - intros Hno aff Haff Hex.
    destruct (mood_rules_defaults mc fh p aff Hno Haff Hex) as [Hr _].
    eexists. split; [exact Hr |]. split.
    + by rewrite keys_boost_fold.
    + intros k. rewrite boost_preferences_get. simpl.
      by destruct (bool_decide (k ∈ aff)), (PyDict.get k fh).
  - apply mood_rules_fallback.
Qed.

(** ** What a valid call can return *)

Lemma weighted_keys t :
  PyDict.keys (_apply_screen_time_rules t) = valid_preferences.
Proof.
  destruct (_apply_screen_time_rules_tiers t) as [[_ ->] | [[_ ->] | [_ ->]]];
    reflexivity.
Qed.

(** Whatever the tier, a weighted list holds habits of its own category. *)
Lemma weighted_entries_from_category t :
  Forall (fun kv : string * list string =>
            Forall (fun h => h ∈ habits_of kv.1) kv.2)
         (_apply_screen_time_rules t).
Proof.
  destruct (_apply_screen_time_rules_tiers t) as [[_ ->] | [[_ ->] | [_ ->]]];
    by_compute.
Qed.

Lemma present_in_all fh p :
  Forall (fun k => k ∈ PyDict.keys fh) p -> present_in fh p = p.
Proof.
  unfold present_in. induction 1 as [|x p Hx Hp IH]; [done |].
  by rewrite filter_cons_True, IH.
Qed.

(** A habit drawn from a pool of boosted entries is a habit of the category
    of the entry it was drawn from. *)
Lemma boosted_pool_habit t (pool : catalog) h :
  Forall (boosted_from (_apply_screen_time_rules t)) pool ->
  h ∈ flatten pool ->
  exists k, k ∈ PyDict.keys pool /\ h ∈ habits_of k.
Proof.
  intros Hall Hh. apply flatten_elem_of in Hh as (k & l & Hkl & Hh).
  exists k. split.
  - unfold PyDict.keys. apply list_elem_of_fmap. by exists (k, l).
  - destruct (proj1 (Forall_forall _ _) Hall _ Hkl) as (v & n & Hget & Hl & _).
    simpl in *. subst l. apply elem_of_repeat_list in Hh.
    apply get_elem_of in Hget.
    pose proof (proj1 (Forall_forall _ _) (weighted_entries_from_category t)
                  _ Hget) as Hv.
    exact (proj1 (Forall_forall _ _) Hv h Hh).
Qed.

(** X7. With valid input and at least one preference, the selection pool
    holds exactly the normalised preferences, each once in order of first
    mention: the affinity categories of the mood are not added, and the
    habit returned is always a catalog habit of one of the preferred
    categories. *)
Theorem preferences_restrict_the_pool mood t prefs w :
  lower mood ∈ valid_moods -> (0 <= t)%Z ->
  Forall (fun p => normalize p ∈ valid_preferences) prefs -> prefs <> [] ->
  exists pool,
    selection_pool mood t prefs = inr pool /\
    PyDict.keys pool = without_duplicates (_normalize_preferences prefs) /\
    exists r w',
      get_habit_suggestion mood t prefs w = (inr r, w') /\
      exists k, k ∈ _normalize_preferences prefs /\ habit r ∈ habits_of k.
Proof.
  intros Hm Ht Hp Hne.
  pose proof (validate_ok mood t prefs Hm Ht Hp) as Hval.
  assert (Hall : Forall (fun k => k ∈ PyDict.keys (_apply_screen_time_rules t))
                   (_normalize_preferences prefs)).
  { rewrite weighted_keys, _normalize_preferences_map. by apply Forall_map. }
  assert (Hex : Exists (fun k => k ∈ PyDict.keys (_apply_screen_time_rules t))
                  (_normalize_preferences prefs)).
  { rewrite _normalize_preferences_map in *.
    destruct prefs as [|x prefs]; [done |].
    apply Forall_cons in Hall as [Hx _]. by apply Exists_cons_hd. }
  destruct (mood_rules_matched (classify mood) _ _ Hex)
    as (pool & Hpool & Hkeys & Hboost & _).
  rewrite (present_in_all _ _ Hall) in Hkeys.
  exists pool. split; [done |]. split; [done |].
  assert (Hst : stocked pool).
  { apply (boosted_from_stocked (_apply_screen_time_rules t));
      [apply _apply_screen_time_rules_stocked | | done].
    intros ->. simpl in Hkeys. symmetry in Hkeys.
    apply dedup_nil in Hkeys. rewrite _normalize_preferences_map in Hkeys.
    by destruct prefs. }
  destruct (stocked_flatten pool Hst) as [Hfl _].
  destruct (_weighted_random_selection_elem pool w Hfl) as (h & Hin & Hsel).
  eexists _, _. split.
  - exact (get_habit_suggestion_run mood t prefs pool w Hval Hpool h _ Hsel).
  - simpl. destruct (boosted_pool_habit t pool h Hboost Hin) as (k & Hk & Hh).
    exists k. split; [| done].
    rewrite Hkeys in Hk. unfold without_duplicates in Hk.
    by apply elem_of_dedup in Hk as [Hk _].
Qed.

Lemma preferences_restrict_the_pool_witness :
  lower "Tired" ∈ valid_moods /\ (0 <= 45)%Z /\
  Forall (fun p => normalize p ∈ valid_preferences)
    ["Physical Activity"; "Nature"; "nature"] /\
  ["Physical Activity"; "Nature"; "nature"] <> [] /\
  exists pool,
    selection_pool "Tired" 45 ["Physical Activity"; "Nature"; "nature"]
    = inr pool /\
    PyDict.keys pool = ["physical_activity"; "nature"].
Proof.
  assert (Hm : lower "Tired" ∈ valid_moods) by by_compute.
  assert (Ht : (0 <= 45)%Z) by lia.
  assert (Hp : Forall (fun p => normalize p ∈ valid_preferences)
                 ["Physical Activity"; "Nature"; "nature"]) by by_compute.
  assert (Hne : ["Physical Activity"; "Nature"; "nature"] <> [])
    by discriminate.
  split; [exact Hm |]. split; [exact Ht |]. split; [exact Hp |].
  split; [exact Hne |].
  destruct (preferences_restrict_the_pool "Tired" 45
              ["Physical Activity"; "Nature"; "nature"]
              (mkWorld (fun n => n) 0 "2024-05-01T09:30:00") Hm Ht Hp Hne)
    as (pool & Hpool & Hkeys & _).
  exists pool. split; [exact Hpool | exact Hkeys].
Defined.

Lemma mood_categories_have_affinity :
  Forall (fun cm : string * list string =>
            is_Some (PyDict.get cm.1 mood_preference_affinity))
         mood_categories.
Proof. by_compute. Qed.

Lemma affinity_defaults_by_tier (fh : catalog) :
  fh = habits \/
  fh = double_categories ["digital_wellbeing"] habits \/
  fh = double_categories ["digital_wellbeing"; "physical_activity"; "nature"]
         habits ->
  Forall (fun ca : string * list string =>
            fold_left (boost_step fh 2) ca.2 []
            = map (fun k => (k, repeat_list (default [] (PyDict.get k fh)) 2))
                ca.2 /\
            Exists (fun k => k ∈ PyDict.keys fh) ca.2)
         mood_preference_affinity.
Proof. intros [-> | [-> | ->]]; by_compute. Qed.

(** X8. With a valid mood and no preferences, the selection pool is exactly
    the affinity list of the mood's category, in the table's order, each
    category with its screen-time-weighted list twice over, for every mood
    and every screen time of at least 0; the habit returned is a catalog habit
    of one of these affinity categories. The whole catalog is never the
    pool. *)
Theorem mood_affinity_is_the_default_pool mood t w :
  lower mood ∈ valid_moods -> (0 <= t)%Z ->
  exists c aff,
    classify mood = Some c /\
    PyDict.get c mood_preference_affinity = Some aff /\
    selection_pool mood t []
    = inr (map (fun k =>
                  (k, repeat_list
                        (default [] (PyDict.get k (_apply_screen_time_rules t)))
                        2)) aff) /\
    exists r w',
      get_habit_suggestion mood t [] w = (inr r, w') /\
      exists k, k ∈ aff /\ habit r ∈ habits_of k.
Proof.
  intros Hm Ht.
  pose proof (validate_ok mood t [] Hm Ht (Forall_nil_2 _)) as Hval.
  destruct (proj1 (Forall_forall _ _) classify_valid_moods _ Hm) as [c Hc].
  destruct (classify_in_sound _ _ _ Hc) as (ms & Hcm & _).
  destruct (proj1 (Forall_forall _ _) mood_categories_have_affinity _ Hcm)
    as [aff Haff]. cbn [fst] in Haff.
  exists c, aff. split; [exact Hc |]. split; [exact Haff |].
  set (fh := _apply_screen_time_rules t).
  assert (Htier : fh = habits \/
    fh = double_categories ["digital_wellbeing"] habits \/
    fh = double_categories ["digital_wellbeing"; "physical_activity"; "nature"]
           habits).
  { subst fh.
    destruct (_apply_screen_time_rules_tiers t) as [[_ ->] | [[_ ->] | [_ ->]]];
      auto. }
  pose proof (proj1 (Forall_forall _ _) (affinity_defaults_by_tier fh Htier)
                _ (get_elem_of _ _ _ Haff)) as [Hfold Hex]. cbn [snd] in Hfold, Hex.
  assert (Hno : ~ Exists (fun k => k ∈ PyDict.keys fh) []).
  { intros H. by apply Exists_nil in H. }
  destruct (mood_rules_defaults (Some c) fh [] aff Hno Haff Hex) as [Hpool Hne].
  rewrite Hfold in Hpool, Hne.
  assert (Hsp : selection_pool mood t []
    = inr (map (fun k => (k, repeat_list (default [] (PyDict.get k fh)) 2)) aff)).
  { unfold selection_pool. unfold classify. rewrite Hc. exact Hpool. }
  split; [exact Hsp |].
  set (pool := map _ aff) in *.
  assert (Hboost : Forall (boosted_from fh) pool).
  { destruct (_apply_mood_rules_shape (Some c) fh []) as (r & Hr & Hshape).
    rewrite Hpool in Hr. injection Hr as <-.
    destruct Hshape as [Heq | [_ Hb]]; [| done].
    exfalso. subst pool.
    assert (Hk : PyDict.keys fh = aff).
    { rewrite <- Heq at 1. unfold PyDict.keys. rewrite <- list_fmap_compose.
      apply list_fmap_id. }
    subst fh. rewrite weighted_keys in Hk. subst aff.
    apply get_elem_of in Haff.
    assert (Hnot : Forall (fun ca : string * list string =>
                             ca.2 <> valid_preferences)
                     mood_preference_affinity) by by_compute.
    by apply (proj1 (Forall_forall _ _) Hnot _ Haff). }
  assert (Hst : stocked pool).
  { by apply (boosted_from_stocked fh);
      [apply _apply_screen_time_rules_stocked | |]. }
  destruct (stocked_flatten pool Hst) as [Hfl _].
  destruct (_weighted_random_selection_elem pool w Hfl) as (h & Hin & Hsel).
  eexists _, _. split.
  - exact (get_habit_suggestion_run mood t [] pool w Hval Hsp h _ Hsel).
  - simpl. destruct (boosted_pool_habit t pool h Hboost Hin) as (k & Hk & Hh).
    exists k. split; [| done].
    subst pool. unfold PyDict.keys in Hk. rewrite <- list_fmap_compose in Hk.
    by rewrite list_fmap_id in Hk.
Qed.

Lemma mood_affinity_is_the_default_pool_witness :
  lower "Excited" ∈ valid_moods /\ (0 <= 200)%Z /\
  exists c aff,
    classify "Excited" = Some c /\
    PyDict.get c mood_preference_affinity = Some aff /\
    selection_pool "Excited" 200 []
    = inr (map (fun k =>
                  (k, repeat_list
                        (default [] (PyDict.get k (_apply_screen_time_rules 200)))
                        2)) aff).
Proof.
  assert (Hm : lower "Excited" ∈ valid_moods) by by_compute.
  assert (Ht : (0 <= 200)%Z) by lia.
  split; [exact Hm |]. split; [exact Ht |].
  destruct (mood_affinity_is_the_default_pool "Excited" 200
              (mkWorld (fun n => n) 0 "2024-05-01T09:30:00") Hm Ht)
    as (c & aff & Hc & Haff & Hpool & _).
  exists c, aff. split; [exact Hc |]. split; [exact Haff | exact Hpool].
Defined.

(** * The HTTP handler *)

Lemma mapM_as_str_strings (ps : list string) :
  mapM Api.as_str (Api.JStr <$> ps) = Some ps.
Proof. by apply mapM_fmap_Some. Qed.

(** On a string mood, an integer screen time and a list of string
    preferences the untyped call is the engine's call. *)
Lemma call_typed m t ps w :
  Api.call_get_habit_suggestion (Api.JStr m) (Api.JInt t)
    (Api.JList (Api.JStr <$> ps)) w
  = match get_habit_suggestion m t ps w with
    | (inl e, w') => (inl (Api.Engine e), w')
    | (inr r, w') =>
        (inr (Api.mkSuggestion (habit r) (HabitRecommender.mood r)
                (mood_category r) (Api.JInt t) (Api.JList (Api.JStr <$> ps))
                (timestamp r) (reasoning r)), w')
    end.
Proof.
  unfold Api.call_get_habit_suggestion. cbn [Api.as_str Api.as_number Api.py_iter].
  case_bool_decide as Hm; cbn [negb].
  - destruct (Z.ltb_spec t 0) as [Ht | Ht].
    + by rewrite (run_of_negative_screen_time m t ps w Hm Ht).
    + by rewrite mapM_as_str_strings.
  - rewrite (run_of_validation_error m t ps _ w
               (validate_invalid_mood m t ps Hm)). reflexivity.
Qed.

Lemma subscript_field fields key v :
  PyDict.get key fields = Some v ->
  Api.has_field key (Api.JObj fields) = Some true /\
  Api.subscript (Api.JObj fields) key = inr v.
Proof.
  intros Hget. unfold Api.has_field, Api.subscript, PyDict.mem.
  by rewrite Hget.
Qed.

(** With the three fields present the handler is the untyped call followed
    by the [except] clauses. *)
Lemma recommend_with_fields fields mood screen prefs w :
  PyDict.get "mood" fields = Some mood ->
  PyDict.get "screen_time_minutes" fields = Some screen ->
  PyDict.get "preferences" fields = Some prefs ->
  Api.recommend (Api.JObj fields) w
  = match Api.call_get_habit_suggestion mood screen prefs w with
    | (inl e, w') => (Api.handle e, w')
    | (inr s, w') => (Api.Ok200 mood screen prefs s, w')
    end.
Proof.
  intros Hm Hs Hp.
  destruct (subscript_field _ _ _ Hm) as [Hm1 Hm2].
  destruct (subscript_field _ _ _ Hs) as [Hs1 Hs2].
  destruct (subscript_field _ _ _ Hp) as [Hp1 Hp2].
  unfold Api.recommend, Api.required_fields. cbn [Api.check_required].
  rewrite Hm1, Hs1, Hp1, Hm2, Hs2, Hp2. reflexivity.
Qed.

(** X9. A body that is a JSON object lacking a required field is answered
    400 with "Missing required field: " and the name of the first missing
    field in the order mood, screen_time_minutes, preferences; the other
    fields are not looked at and the engine is not called. *)
Theorem recommend_reports_first_missing_field
    (fields : PyDict.dict Api.json) (w : World) :
  (PyDict.mem "mood" fields = false ->
   Api.recommend (Api.JObj fields) w
   = (Api.BadRequest400 "Missing required field: mood", w)) /\
  (PyDict.mem "mood" fields = true ->
   PyDict.mem "screen_time_minutes" fields = false ->
   Api.recommend (Api.JObj fields) w
   = (Api.BadRequest400 "Missing required field: screen_time_minutes", w)) /\
  (PyDict.mem "mood" fields = true ->
   PyDict.mem "screen_time_minutes" fields = true ->
   PyDict.mem "preferences" fields = false ->
   Api.recommend (Api.JObj fields) w
   = (Api.BadRequest400 "Missing required field: preferences", w)).
Proof.
  unfold Api.recommend, Api.required_fields.
  cbn [Api.check_required Api.has_field].
  split; [| split].
  - by intros ->.
  - by intros -> ->.
  - by intros -> -> ->.
Qed.

(** X10. A well-typed request (string mood, integer screen time, list of
    string preferences) is never answered 500. It is answered 200 when the
    engine's validation passes, with the three fields echoed as sent and a
    suggestion whose habit is a catalog habit; otherwise it is answered 400
    with the message of the engine's [ValueError], and the random source is
    not used. *)
Theorem recommend_on_well_typed_body
    (fields : PyDict.dict Api.json) m t ps (w : World) :
  PyDict.get "mood" fields = Some (Api.JStr m) ->
  PyDict.get "screen_time_minutes" fields = Some (Api.JInt t) ->
  PyDict.get "preferences" fields = Some (Api.JList (Api.JStr <$> ps)) ->
  (lower m ∈ valid_moods /\ (0 <= t)%Z /\
   Forall (fun p => normalize p ∈ valid_preferences) ps ->
   exists s w',
     Api.recommend (Api.JObj fields) w
     = (Api.Ok200 (Api.JStr m) (Api.JInt t) (Api.JList (Api.JStr <$> ps)) s,
        w') /\
     Api.mood s = m /\ Api.screen_time_minutes s = Api.JInt t /\
     Api.preferences s = Api.JList (Api.JStr <$> ps) /\
     exists c l, (c, l) ∈ habits /\ Api.habit s ∈ l) /\
  (~ (lower m ∈ valid_moods /\ (0 <= t)%Z /\
      Forall (fun p => normalize p ∈ valid_preferences) ps) ->
   exists msg,
     _validate_inputs m t ps = inl (ValueError msg) /\
     Api.recommend (Api.JObj fields) w = (Api.BadRequest400 msg, w)).
Proof.
  intros Hm Hs Hp.
  rewrite (recommend_with_fields fields _ _ _ w Hm Hs Hp), call_typed.
  split.
  - intros (Hvm & Ht & Hvp).
    pose proof (validate_ok m t ps Hvm Ht Hvp) as Hval.
    destruct (valid_input_pool m t ps) as (pool & Hpool & Hst & _).
    destruct (stocked_flatten pool Hst) as [Hne Hsub].
    destruct (_weighted_random_selection_elem pool w Hne) as (h & Hin & Hsel).
    rewrite (get_habit_suggestion_run m t ps pool w Hval Hpool h _ Hsel).
    eexists _, _. split; [reflexivity |]. cbn.
    split; [done |]. split; [done |]. split; [done |].
    apply flatten_elem_of. by apply Hsub.
  - intros Hno.
    destruct (validate_cases m t ps) as [(_ & Hok) | ((msg & Hval) & _)];
      [done |].
    exists msg. split; [done |].
    by rewrite (run_of_validation_error m t ps _ w Hval).
Qed.

Lemma recommend_on_well_typed_body_witness :
  exists s w',
    Api.recommend
      (Api.JObj [("mood", Api.JStr "Stressed");
                 ("screen_time_minutes", Api.JInt 310);
                 ("preferences",
                  Api.JList (Api.JStr <$> ["Relaxation"; "Mindfulness"]))])
      (mkWorld (fun n => n) 0 "2024-05-01T09:30:00")
    = (Api.Ok200 (Api.JStr "Stressed") (Api.JInt 310)
         (Api.JList (Api.JStr <$> ["Relaxation"; "Mindfulness"])) s, w').
Proof.
  assert (Hv : lower "Stressed" ∈ valid_moods /\ (0 <= 310)%Z /\
    Forall (fun p => normalize p ∈ valid_preferences)
      ["Relaxation"; "Mindfulness"]).
  { split; [by_compute |]. split; [lia | by_compute]. }
  destruct (proj1 (recommend_on_well_typed_body
    [("mood", Api.JStr "Stressed"); ("screen_time_minutes", Api.JInt 310);
     ("preferences", Api.JList (Api.JStr <$> ["Relaxation"; "Mindfulness"]))]
    "Stressed" 310 ["Relaxation"; "Mindfulness"]
    (mkWorld (fun n => n) 0 "2024-05-01T09:30:00")
    eq_refl eq_refl eq_refl) Hv) as (s & w' & Hrun & _).
  exists s, w'. exact Hrun.
Defined.





(** X12. Ill-typed fields, in the order the engine touches them. A mood that
    is not a string is answered 500 ([AttributeError]). With a valid mood, a
    screen time that is not a number is answered 400 with the screen-time
    message, whatever the preferences are. With a valid mood and a screen
    time of at least 0, preferences that cannot be iterated are answered 500
    ([TypeError]) and preferences with an element that is not a string are
    answered 500 ([AttributeError]), even when an earlier element is an
    invalid preference. In none of these cases is the random source used. *)
Theorem recommend_on_ill_typed_fields
    (fields : PyDict.dict Api.json) (mood screen prefs : Api.json) (w : World) :
  PyDict.get "mood" fields = Some mood ->
  PyDict.get "screen_time_minutes" fields = Some screen ->
  PyDict.get "preferences" fields = Some prefs ->
  (Api.as_str mood = None ->
   Api.recommend (Api.JObj fields) w
   = (Api.InternalError500 Api.AttributeError, w)) /\
  (forall m, mood = Api.JStr m -> lower m ∈ valid_moods ->
     Api.as_number screen = None ->
     Api.recommend (Api.JObj fields) w
     = (Api.BadRequest400 "Screen time must be a positive number of minutes",
        w)) /\
  (forall m t, mood = Api.JStr m -> lower m ∈ valid_moods ->
     Api.as_number screen = Some t -> (0 <= t)%Z ->
     (Api.py_iter prefs = None ->
      Api.recommend (Api.JObj fields) w
      = (Api.InternalError500 Api.TypeError, w)) /\
     (forall items, Api.py_iter prefs = Some items ->
        mapM Api.as_str items = None ->
        Api.recommend (Api.JObj fields) w
        = (Api.InternalError500 Api.AttributeError, w))).
Proof.
  intros Hm Hs Hp.
  rewrite (recommend_with_fields fields _ _ _ w Hm Hs Hp).
  unfold Api.call_get_habit_suggestion.
  split; [| split].
  - by intros ->.
  - intros m -> Hvm ->. cbn [Api.as_str].
    by rewrite bool_decide_true by done.
  - intros m t -> Hvm -> Ht. cbn [Api.as_str].
    rewrite bool_decide_true by done. cbn [negb].
    destruct (Z.ltb_spec t 0); [lia |].
    split; [by intros -> |]. by intros items -> ->.
Qed.

Lemma recommend_on_ill_typed_fields_witness :
  Api.recommend
    (Api.JObj [("mood", Api.JStr "Happy");
               ("screen_time_minutes", Api.JInt 100);
               ("preferences", Api.JList [Api.JStr "Gaming"; Api.JInt 5])])
    (mkWorld (fun n => n) 0 "2024-05-01T09:30:00")
  = (Api.InternalError500 Api.AttributeError,
     mkWorld (fun n => n) 0 "2024-05-01T09:30:00").
Proof.
  assert (Hm : lower "Happy" ∈ valid_moods) by by_compute.
  assert (Ht : (0 <= 100)%Z) by lia.
  exact (proj2 (proj2 (proj2 (recommend_on_ill_typed_fields
    [("mood", Api.JStr "Happy"); ("screen_time_minutes", Api.JInt 100);
     ("preferences", Api.JList [Api.JStr "Gaming"; Api.JInt 5])]
    (Api.JStr "Happy") (Api.JInt 100)
    (Api.JList [Api.JStr "Gaming"; Api.JInt 5])
    (mkWorld (fun n => n) 0 "2024-05-01T09:30:00")
    eq_refl eq_refl eq_refl))
    "Happy" 100%Z eq_refl Hm eq_refl Ht)
    [Api.JStr "Gaming"; Api.JInt 5] eq_refl eq_refl).
Defined.

(** X13. A body that is not a JSON object is never answered 200: [null], a
    boolean or a number is answered 500 ([TypeError] from the membership
    test), and a list or a string is answered 400 for a missing field or,
    when it happens to contain the three field names, 500 ([TypeError] from
    the subscript). *)
Theorem recommend_needs_an_object (data : Api.json) (w : World) :
  (forall fields, data <> Api.JObj fields) ->
  (exists field,
     field ∈ Api.required_fields /\
     Api.recommend data w
     = (Api.BadRequest400 ("Missing required field: " +:+ field), w)) \/
  Api.recommend data w = (Api.InternalError500 Api.TypeError, w).
Proof.
  intros Hobj. unfold Api.recommend.
  assert (Hsub : forall k, Api.subscript data k = inl Api.TypeError).
  { intros k. destruct data; try reflexivity. by destruct (Hobj fields). }
  assert (Hreq : forall fs, (forall f, f ∈ fs -> f ∈ Api.required_fields) ->
    Api.check_required fs data = inl Api.TypeError \/
    Api.check_required fs data = inr None \/
    exists f, f ∈ Api.required_fields /\
              Api.check_required fs data = inr (Some f)).
  { induction fs as [|f fs IH]; intros Hfs; cbn [Api.check_required]; [auto |].
    destruct (Api.has_field f data) as [[] |]; [| | auto].
    - apply IH. intros g Hg. apply Hfs. apply elem_of_cons. by right.
    - right. right. exists f. split; [| done].
      apply Hfs. apply elem_of_cons. by left. }
  destruct (Hreq Api.required_fields) as [-> | [-> | (f & Hf & ->)]]; [done | | |].
  - by right.
  - rewrite Hsub. by right.
  - left. by exists f.
Qed.

Lemma recommend_needs_an_object_witness :
  (forall fields,
     Api.JList [Api.JStr "mood"; Api.JStr "preferences"] <> Api.JObj fields) /\
  ((exists field,
      field ∈ Api.required_fields /\
      Api.recommend (Api.JList [Api.JStr "mood"; Api.JStr "preferences"])
        (mkWorld (fun n => n) 0 "2024-05-01T09:30:00")
      = (Api.BadRequest400 ("Missing required field: " +:+ field),
         mkWorld (fun n => n) 0 "2024-05-01T09:30:00")) \/
   Api.recommend (Api.JList [Api.JStr "mood"; Api.JStr "preferences"])
     (mkWorld (fun n => n) 0 "2024-05-01T09:30:00")
   = (Api.InternalError500 Api.TypeError,
      mkWorld (fun n => n) 0 "2024-05-01T09:30:00")).
Proof.
  assert (H : forall fields,
    Api.JList [Api.JStr "mood"; Api.JStr "preferences"] <> Api.JObj fields)
    by discriminate.
  split; [exact H |].
  exact (recommend_needs_an_object _ _ H).
Defined.

(** * Object identity across calls *)

Import Store.

(** One call of the filter, as in the catalog-preservation claim, for use
    under induction. *)
Lemma filter_run (h : store) (self_habits : loc) (t : Z) :
  view h self_habits = Some habits ->
  exists filtered h' entries',
    Store._apply_screen_time_rules self_habits t h = Some (filtered, h') /\
    filtered = length h /\ preserved h h' /\
    h' !! filtered = Some (ODict entries') /\
    Forall2 (fun e kv => deref_entry h' e = Some kv) entries'
      (HabitRecommender._apply_screen_time_rules t).
Proof.
  intros Hview. apply view_spec in Hview as (entries & Hd & Hall).
  set (h1 := h ++ [ODict entries]).
  assert (Hp1 : preserved h h1) by apply preserved_alloc.
  assert (Hd1 : h1 !! length h = Some (ODict entries)) by apply lookup_alloc.
  assert (Hall1 : Forall2 (fun e kv => deref_entry h1 e = Some kv) entries habits).
  { eapply Forall2_impl; [exact Hall |].
    intros e kv. rewrite !deref_entry_spec. intros [? He].
    split; [done | by apply Hp1]. }
  assert (Hloop : exists h' entries',
    (if (240 <? t)%Z then
       for_each ["digital_wellbeing"; "physical_activity"; "nature"]
         (double_category (length h))
     else if (120 <? t)%Z then
       for_each ["digital_wellbeing"] (double_category (length h))
     else st_ret tt) h1 = Some (tt, h') /\
    preserved h h' /\ h' !! length h = Some (ODict entries') /\
    Forall2 (fun e kv => deref_entry h' e = Some kv) entries'
      (HabitRecommender._apply_screen_time_rules t)).
  { unfold HabitRecommender._apply_screen_time_rules.
    destruct (240 <? t)%Z; [| destruct (120 <? t)%Z].
    - by apply (for_each_double_run h (length h) _ h1 entries habits).
    - by apply (for_each_double_run h (length h) _ h1 entries habits).
    - exists h1, entries. done. }
  destruct Hloop as (h' & entries' & Hrun & Hp & Hd' & Hall').
  exists (length h), h', entries'. split; [| done].
  unfold Store._apply_screen_time_rules, dict_copy, st_bind, read_dict, alloc.
  rewrite Hd. fold h1. rewrite Hrun. reflexivity.
Qed.

(** X14. Any number of successive calls of the screen-time filter, with any
    screen times, all succeed and leave every object of the initial store
    unchanged, so [self.habits] still denotes the catalog afterwards. Each
    call returns a dict object of its own (the references are new and
    pairwise different), and each keeps denoting the weighted catalog of its
    screen time after the later calls. *)
Theorem successive_filter_calls_keep_catalog
    (ts : list Z) (h : store) (self_habits : loc) :
  view h self_habits = Some habits ->
  exists refs h',
    Calls.filter_each self_habits ts h = Some (refs, h') /\
    preserved h h' /\ view h' self_habits = Some habits /\
    NoDup refs /\ Forall (fun a => h !! a = None) refs /\
    Forall2 (fun a t =>
               view h' a = Some (HabitRecommender._apply_screen_time_rules t))
            refs ts.
Proof.
  revert h. induction ts as [|t ts IH]; intros h Hview.
  - exists [], h. simpl. unfold st_ret.
    split; [done |]. split; [apply preserved_refl |]. split; [done |].
    split; [constructor |]. split; constructor.
  - destruct (filter_run h self_habits t Hview)
      as (a & h1 & entries1 & Hrun1 & Ha & Hp1 & Hd1 & Hall1).
    pose proof (view_preserved h h1 _ _ Hp1 Hview) as Hview1.
    destruct (IH h1 Hview1) as (refs & h' & Hrun & Hp & Hv & Hnd & Hfresh & Hvs).
    exists (a :: refs), h'. split; [| split; [| split; [| split; [| split]]]].
    + simpl. unfold st_bind at 1. rewrite Hrun1.
      unfold st_bind at 1. rewrite Hrun. reflexivity.
    + by apply (preserved_trans h h1 h').
    + done.
    + constructor; [| done]. intros Hin.
      pose proof (proj1 (Forall_forall _ _) Hfresh a Hin) as Hnone.
      congruence.
    + constructor.
      * apply lookup_ge_None. lia.
      * eapply Forall_impl; [exact Hfresh |].
        intros b Hb. destruct (h !! b) as [o|] eqn:Hhb; [| done].
        apply Hp1 in Hhb. congruence.
    + constructor; [| done].
      apply (view_preserved h1 h'); [done |].
      apply view_spec. by exists entries1.
Qed.

Lemma successive_filter_calls_keep_catalog_witness :
  exists h self_habits,
    init_habits [] = Some (self_habits, h) /\
    view h self_habits = Some habits /\
    exists refs h',
      Calls.filter_each self_habits [310; 45; 150]%Z h = Some (refs, h') /\
      view h' self_habits = Some habits /\ NoDup refs.
Proof.
  destruct (init_habits []) as [[a h] |] eqn:Hinit; [| discriminate].
  exists h, a. split; [reflexivity |].
  assert (Hview : view h a = Some habits).
  { vm_compute in Hinit. injection Hinit as <- <-. vm_compute. reflexivity. }
  split; [exact Hview |].
  destruct (successive_filter_calls_keep_catalog [310; 45; 150]%Z h a Hview)
    as (refs & h' & Hrun & _ & Hkept & Hnd & _).
  exists refs, h'. split; [exact Hrun |]. split; [exact Hkept | exact Hnd].
Defined.

(** The entries of the copy after one round of the doubling loop: the entry
    of the category now refers to an object allocated in this round, the
    others are as before. *)
Lemma double_category_entries f category (h : store) entries (c : catalog) :
  h !! f = Some (ODict entries) ->
  Forall2 (fun e kv => deref_entry h e = Some kv) entries c ->
  exists h' a,
    double_category f category h = Some (tt, h') /\
    h' !! f = Some (ODict (PyDict.set category a entries)) /\
    length h <= a /\ length h <= length h'.
Proof.
  intros Hd Hall.
  pose proof (lookup_lt_Some _ _ _ Hd) as Hlt.
  set (h1 := h ++ [OList []]).
  set (old := default (length h) (PyDict.get category entries)).
  set (items := default [] (PyDict.get category c)).
  set (h2 := h1 ++ [OList (repeat_list items 2)]).
  assert (Hd1 : h1 !! f = Some (ODict entries)) by by apply lookup_app_l_Some.
  assert (Hd2 : h2 !! f = Some (ODict entries)) by by apply lookup_app_l_Some.
  assert (Hold : h1 !! old = Some (OList items)).
  { subst old items. pose proof (denoted_get h entries c category Hall) as Hg.
    destruct (PyDict.get category entries) as [a|]; simpl.
    - destruct Hg as (l & -> & Ha). simpl. by apply lookup_app_l_Some.
    - rewrite Hg. simpl. apply lookup_alloc. }
  assert (Hlen2 : length h2 = S (S (length h))).
  { subst h2 h1. rewrite !length_app. simpl. lia. }
  exists (<[f := ODict (PyDict.set category (length h1) entries)]> h2),
    (length h1).
  split; [| split; [| split]].
  - unfold double_category, new_list, dict_get, list_mul, dict_setitem,
      st_bind, alloc, read_dict, read_list, write, st_ret.
    cbv beta iota. change (h ++ [OList []]) with h1. rewrite Hd1.
    cbv beta iota. change (default (length h) (PyDict.get category entries))
      with old. rewrite Hold.
    cbv beta iota. change (h1 ++ [OList (repeat_list items 2)]) with h2.
    rewrite Hd2. cbv beta iota.
    rewrite decide_True; [reflexivity | lia].
  - apply list_lookup_insert_eq. lia.
  - subst h1. rewrite length_app. simpl. lia.
  - rewrite length_insert. lia.
Qed.

Lemma for_each_double_entries h0 f categories :
  forall (h : store) entries (c : catalog),
  length h0 <= f -> length h0 <= length h -> preserved h0 h ->
  h !! f = Some (ODict entries) ->
  Forall2 (fun e kv => deref_entry h e = Some kv) entries c ->
  exists h' entries',
    for_each categories (double_category f) h = Some (tt, h') /\
    h' !! f = Some (ODict entries') /\
    (forall k, k ∉ categories -> PyDict.get k entries' = PyDict.get k entries) /\
    (forall k, k ∈ categories ->
       exists a, PyDict.get k entries' = Some a /\ length h0 <= a).
Proof.
  induction categories as [|category categories IH];
    intros h entries c Hf Hlen Hp Hd Hall.
  - exists h, entries. split; [done |]. split; [done |]. split; [done |].
    intros k Hk. by apply elem_of_nil in Hk.
  - destruct (double_category_run h0 f category h entries c Hf Hp Hd Hall)
      as (h1 & entries1 & Hrun1 & Hp1 & Hd1 & Hall1).
    destruct (double_category_entries f category h entries c Hd Hall)
      as (h1' & a & Hrun1' & Hd1' & Ha & Hlen1).
    rewrite Hrun1 in Hrun1'. injection Hrun1' as <-.
    rewrite Hd1 in Hd1'. injection Hd1' as ->.
    destruct (IH h1 _ _ Hf ltac:(lia) Hp1 Hd1 Hall1)
      as (h2 & entries2 & Hrun2 & Hd2 & Hsame & Hnew).
    exists h2, entries2. split; [| split; [done |]; split].
    + simpl. unfold st_bind at 1. rewrite Hrun1. exact Hrun2.
    + intros k Hk. apply not_elem_of_cons in Hk as [Hne Hk].
      rewrite (Hsame k Hk). by apply get_set_ne.
    + intros k Hk.
      destruct (decide (k ∈ categories)) as [Hin | Hnin]; [by apply Hnew |].
      apply elem_of_cons in Hk as [-> | Hk]; [| done].
      rewrite (Hsame category Hnin), get_set_eq. exists a.
      split; [done | lia].
Qed.

(** X15. The copy that the screen-time filter returns is shallow. Every
    category that the screen time does not boost refers, in the returned
    dict, to the very list object that [self.habits] refers to; every
    boosted category refers to a list object that did not exist before the
    call. Up to 120 minutes nothing is boosted, so the returned dict shares
    all eight list objects with the catalog. *)
Theorem screen_time_filter_copy_is_shallow
    (h : store) (self_habits : loc) (t : Z) :
  view h self_habits = Some habits ->
  exists entries filtered h' entries',
    h !! self_habits = Some (ODict entries) /\
    Store._apply_screen_time_rules self_habits t h = Some (filtered, h') /\
    h' !! filtered = Some (ODict entries') /\
    (forall k, k ∉ Calls.boosted_categories t ->
       PyDict.get k entries' = PyDict.get k entries) /\
    (forall k, k ∈ Calls.boosted_categories t ->
       exists a, PyDict.get k entries' = Some a /\ h !! a = None).
Proof.
  intros Hview. apply view_spec in Hview as (entries & Hd & Hall).
  set (h1 := h ++ [ODict entries]).
  assert (Hp1 : preserved h h1) by apply preserved_alloc.
  assert (Hd1 : h1 !! length h = Some (ODict entries)) by apply lookup_alloc.
  assert (Hlen1 : length h <= length h1).
  { subst h1. rewrite length_app. lia. }
  assert (Hall1 : Forall2 (fun e kv => deref_entry h1 e = Some kv) entries habits).
  { eapply Forall2_impl; [exact Hall |].
    intros e kv. rewrite !deref_entry_spec. intros [? He].
    split; [done | by apply Hp1]. }
  destruct (for_each_double_entries h (length h) (Calls.boosted_categories t)
              h1 entries habits (le_n _) Hlen1 Hp1 Hd1 Hall1)
    as (h' & entries' & Hrun & Hd' & Hsame & Hnew).
  exists entries, (length h), h', entries'.
  split; [done |]. split; [| split; [done |]; split; [done |]].
  - unfold Store._apply_screen_time_rules, dict_copy, st_bind, read_dict, alloc.
    rewrite Hd. fold h1. unfold Calls.boosted_categories in Hrun.
    destruct (240 <? t)%Z; [| destruct (120 <? t)%Z];
      first [rewrite Hrun | cbn [for_each] in Hrun; rewrite Hrun];
      reflexivity.
  - intros k Hk. destruct (Hnew k Hk) as (a & Hget & Ha).
    exists a. split; [done |]. by apply lookup_ge_None.
Qed.

Lemma screen_time_filter_copy_is_shallow_witness :
  exists h self_habits,
    init_habits [] = Some (self_habits, h) /\
    view h self_habits = Some habits /\
    exists entries filtered h' entries',
      h !! self_habits = Some (ODict entries) /\
      Store._apply_screen_time_rules self_habits 150 h = Some (filtered, h') /\
      h' !! filtered = Some (ODict entries') /\
      PyDict.get "nature" entries' = PyDict.get "nature" entries.
Proof.
  destruct (init_habits []) as [[a h] |] eqn:Hinit; [| discriminate].
  exists h, a. split; [reflexivity |].
  assert (Hview : view h a = Some habits).
  { vm_compute in Hinit. injection Hinit as <- <-. vm_compute. reflexivity. }
  split; [exact Hview |].
  destruct (screen_time_filter_copy_is_shallow h a 150 Hview)
    as (entries & f & h' & entries' & Hd & Hrun & Hd' & Hsame & _).
  exists entries, f, h', entries'.
  split; [exact Hd |]. split; [exact Hrun |]. split; [exact Hd' |].
  apply Hsame. by_compute.
Defined.

(** * The reasoning text *)

Import HabitRecommender.

Lemma join_head sep x (l : list string) :
  exists rest, join sep (x :: l) = x +:+ rest.
Proof.
  destruct l as [|y l].
  - exists "". simpl. by rewrite append_empty_r.
  - eexists. apply join_cons.
Qed.

Lemma join_snoc sep (l : list string) x :
  l <> [] -> join sep (l ++ [x]) = join sep l +:+ sep +:+ x.
Proof.
  induction l as [|y l IH]; [done |]. intros _.
  destruct l as [|z l]; [reflexivity |].
  change ((y :: z :: l) ++ [x]) with (y :: (z :: l) ++ [x]).
  change ((z :: l) ++ [x]) with (z :: l ++ [x]) at 1.
  rewrite join_cons.
  change (z :: l ++ [x]) with ((z :: l) ++ [x]).
  rewrite IH by done. rewrite join_cons. by rewrite !append_assoc.
Qed.

Lemma mood_sentence_classified mood c ms :
  (c, ms) ∈ mood_categories ->
  exists tail,
    mood_sentence mood (Some c) = ["When you're feeling " +:+ mood +:+ tail].
Proof.
  unfold mood_categories. rewrite !elem_of_cons, elem_of_nil.
  intros [[= -> _] | [[= -> _] | [[= -> _] | [[= -> _] | [[= -> _] | []]]]]];
    eexists; reflexivity.
Qed.

Lemma valid_preferences_displayed :
  Forall (fun k => is_Some (PyDict.get k preference_display_names))
         valid_preferences.
Proof. by_compute. Qed.

(** X16. On valid input the reasoning begins with the mood sentence, which
    quotes the mood exactly as the caller wrote it; and when preferences were
    given it ends with the preference sentence, which names each preference
    by the display name of the category it normalises to (the capitalised
    fallback is never used), in the order given and joined by " and ". *)
Theorem reasoning_quotes_mood_and_display_names mood t prefs w :
  lower mood ∈ valid_moods -> (0 <= t)%Z ->
  Forall (fun p => normalize p ∈ valid_preferences) prefs ->
  exists r w' names,
    get_habit_suggestion mood t prefs w = (inr r, w') /\
    Forall2 (fun p name => (normalize p, name) ∈ preference_display_names)
            prefs names /\
    (exists rest,
       reasoning r = "When you're feeling " +:+ mood +:+ rest) /\
    (prefs <> [] ->
     exists before,
       reasoning r
       = before +:+ "This suggestion aligns with your preference for "
           +:+ join " and " names +:+ ".").
Proof.
  intros Hm Ht Hp.
  pose proof (validate_ok mood t prefs Hm Ht Hp) as Hval.
  destruct (run_of_validation_success mood t prefs w Hval)
    as (pool & h & _ & _ & Hrun).
  set (names := map (fun p => default (capitalize p)
                                (PyDict.get p preference_display_names))
                    (_normalize_preferences prefs)).
  eexists _, _, names. split; [exact Hrun |]. cbn [reasoning].
  destruct (proj1 (Forall_forall _ _) classify_valid_moods _ Hm) as [c Hc].
  destruct (classify_in_sound _ _ _ Hc) as (ms & Hcm & _).
  destruct (mood_sentence_classified mood c ms Hcm) as (tail & Hms).
  unfold _generate_reasoning, classify. rewrite Hc, Hms.
  split; [| split].
  - subst names. rewrite _normalize_preferences_map, map_map.
    apply Forall2_fmap_r, Forall_Forall2_diag.
    eapply Forall_impl; [exact Hp |]. intros p Hvalid.
    unfold compose. cbv beta.
    destruct (proj1 (Forall_forall _ _) valid_preferences_displayed _ Hvalid)
      as [d Hd].
    rewrite Hd. cbn [from_option id]. by apply get_elem_of.
  - cbn [app].
    destruct (join_head " " ("When you're feeling " +:+ mood +:+ tail)
                (screen_time_sentence t
                 ++ preference_sentence (_normalize_preferences prefs)))
      as (rest & ->).
    exists (tail +:+ rest). by rewrite !append_assoc.
  - intros Hne.
    assert (Hps : preference_sentence (_normalize_preferences prefs)
      = ["This suggestion aligns with your preference for "
           +:+ join " and " names +:+ "."]).
    { subst names. rewrite _normalize_preferences_map.
      destruct prefs; [done | reflexivity]. }
    rewrite Hps, app_assoc, join_snoc by done.
    eexists. by rewrite <- append_assoc.
Qed.

Lemma reasoning_quotes_mood_and_display_names_witness :
  lower "TIRED" ∈ valid_moods /\ (0 <= 45)%Z /\
  Forall (fun p => normalize p ∈ valid_preferences)
    ["physical_activity"; "NATURE"] /\
  exists r w' names,
    get_habit_suggestion "TIRED" 45 ["physical_activity"; "NATURE"]
      (mkWorld (fun n => n) 0 "2024-05-01T09:30:00") = (inr r, w') /\
    Forall2 (fun p name => (normalize p, name) ∈ preference_display_names)
            ["physical_activity"; "NATURE"] names.
Proof.
  assert (Hm : lower "TIRED" ∈ valid_moods) by by_compute.
  assert (Ht : (0 <= 45)%Z) by lia.
  assert (Hp : Forall (fun p => normalize p ∈ valid_preferences)
                 ["physical_activity"; "NATURE"]) by by_compute.
  split; [exact Hm |]. split; [exact Ht |]. split; [exact Hp |].
  destruct (reasoning_quotes_mood_and_display_names "TIRED" 45
              ["physical_activity"; "NATURE"]
              (mkWorld (fun n => n) 0 "2024-05-01T09:30:00") Hm Ht Hp)
    as (r & w' & names & Hrun & Hnames & _).
  exists r, w', names. split; [exact Hrun | exact Hnames].
Defined.

(** * Selection weights *)

Lemma occurrences_repeat_list x (l : list string) n :
  occurrences x (repeat_list l n) = n * occurrences x l.
Proof.
  induction n as [|n IH]; simpl; [reflexivity |].
  rewrite occurrences_app, IH. lia.
Qed.

Lemma occurrences_absent x (l : list string) : x ∉ l -> occurrences x l = 0.
Proof.
  unfold occurrences. induction l as [|y l IH]; intros Hx; [reflexivity |].
  apply not_elem_of_cons in Hx as [Hne Hx].
  rewrite filter_cons_False by congruence. by apply IH.
Qed.

Lemma flatten_cons k l (d : catalog) : flatten ((k, l) :: d) = l ++ flatten d.
Proof. by rewrite !flatten_concat. Qed.

(** In a mapping with distinct keys, a habit that only the list of [k] holds
    occurs in the flattened mapping as often as in that list. *)
Lemma occurrences_flatten_one (d : catalog) k l x :
  NoDup (PyDict.keys d) -> (k, l) ∈ d ->
  (forall k' l', (k', l') ∈ d -> k' <> k -> x ∉ l') ->
  occurrences x (flatten d) = occurrences x l.
Proof.
  unfold PyDict.keys.
  induction d as [|[k0 l0] d IH]; intros Hnd Hin Hother.
  - by apply elem_of_nil in Hin.
  - rewrite flatten_cons, occurrences_app. csimpl in Hnd.
    apply NoDup_cons in Hnd as [Hk0 Hnd].
    apply elem_of_cons in Hin as [[= <- <-] | Hin].
    + rewrite (occurrences_absent x (flatten d)); [lia |].
      intros Hx. apply flatten_elem_of in Hx as (k' & l' & Hkl & Hx).
      apply (Hother k' l'); [apply elem_of_cons; by right | | done].
      intros ->. apply Hk0. apply list_elem_of_fmap. by exists (k, l').
    + rewrite (occurrences_absent x l0).
      * rewrite IH; [done | done | done |].
        intros k' l' Hkl. apply Hother. apply elem_of_cons. by right.
      * apply (Hother k0 l0); [apply elem_of_cons; by left |].
        intros ->. apply Hk0. apply list_elem_of_fmap. by exists (k, l).
Qed.

Lemma habit_categories_disjoint :
  Forall (fun kv : string * list string =>
    Forall (fun h =>
      Forall (fun kv' : string * list string => h ∈ kv'.2 -> kv.1 = kv'.1)
             habits) kv.2) habits.
Proof. by_compute. Qed.

Lemma habits_of_elem k h :
  h ∈ habits_of k -> exists l, (k, l) ∈ habits /\ h ∈ l.
Proof.
  unfold habits_of. destruct (PyDict.get k habits) as [l|] eqn:Hget; simpl.
  - intros Hh. exists l. split; [by apply get_elem_of | done].
  - intros Hh. by apply elem_of_nil in Hh.
Qed.

Lemma habits_of_one_category k k' h :
  h ∈ habits_of k -> h ∈ habits_of k' -> k = k'.
Proof.
  intros Hk Hk'.
  apply habits_of_elem in Hk as (l & Hl & Hh).
  apply habits_of_elem in Hk' as (l' & Hl' & Hh').
  pose proof (proj1 (Forall_forall _ _) habit_categories_disjoint _ Hl) as H1.
  pose proof (proj1 (Forall_forall _ _) H1 h Hh) as H2.
  exact (proj1 (Forall_forall _ _) H2 _ Hl' Hh').
Qed.

Lemma tiers_with_boosted t :
  (_apply_screen_time_rules t
   = double_categories ["digital_wellbeing"; "physical_activity"; "nature"]
       habits /\
   Calls.boosted_categories t
   = ["digital_wellbeing"; "physical_activity"; "nature"]) \/
  (_apply_screen_time_rules t = double_categories ["digital_wellbeing"] habits /\
   Calls.boosted_categories t = ["digital_wellbeing"]) \/
  (_apply_screen_time_rules t = habits /\ Calls.boosted_categories t = []).
Proof.
  unfold _apply_screen_time_rules, Calls.boosted_categories.
  destruct (240 <? t)%Z; [auto |]. destruct (120 <? t)%Z; auto.
Qed.

(** How often the weighted list of a category holds each of its habits. *)
Lemma weighted_occurrences t :
  Forall (fun kv : string * list string =>
            Forall (fun h =>
                      occurrences h kv.2
                      = if bool_decide (kv.1 ∈ Calls.boosted_categories t)
                        then 2 else 1)
                   (habits_of kv.1))
         (_apply_screen_time_rules t).
Proof.
  destruct (tiers_with_boosted t) as [[-> ->] | [[-> ->] | [-> ->]]];
    by_compute.
Qed.

Lemma affinity_lists_distinct :
  Forall (fun ca : string * list string => NoDup ca.2) mood_preference_affinity.
Proof. by_compute. Qed.

(** The pool of a valid call: distinct categories, each with its weighted
    list two or three times over. *)
Lemma valid_pool_entries mood t prefs :
  lower mood ∈ valid_moods ->
  Forall (fun p => normalize p ∈ valid_preferences) prefs ->
  exists pool,
    selection_pool mood t prefs = inr pool /\
    NoDup (PyDict.keys pool) /\
    Forall (boosted_from (_apply_screen_time_rules t)) pool /\
    forall k, k ∈ PyDict.keys pool ->
      exists v, PyDict.get k (_apply_screen_time_rules t) = Some v /\
        (k, repeat_list v
              (match prefs with
               | [] => 2
               | _ :: _ =>
                   if bool_decide
                        (k ∈ default [] (affinity_of (classify mood)))
                   then 3 else 2
               end)) ∈ pool.
Proof.
  intros Hm Hp. set (fh := _apply_screen_time_rules t).
  destruct prefs as [|p0 prefs'].
  - destruct (proj1 (Forall_forall _ _) classify_valid_moods _ Hm) as [c Hc].
    destruct (classify_in_sound _ _ _ Hc) as (ms & Hcm & _).
    destruct (proj1 (Forall_forall _ _) mood_categories_have_affinity _ Hcm)
      as [aff Haff]. cbn [fst] in Haff.
    assert (Htier : fh = habits \/
      fh = double_categories ["digital_wellbeing"] habits \/
      fh = double_categories
             ["digital_wellbeing"; "physical_activity"; "nature"] habits).
    { subst fh.
      destruct (_apply_screen_time_rules_tiers t)
        as [[_ ->] | [[_ ->] | [_ ->]]]; auto. }
    pose proof (get_elem_of _ _ _ Haff) as Hin.
    pose proof (proj1 (Forall_forall _ _) (affinity_defaults_by_tier fh Htier)
                  _ Hin) as [_ Hex]. cbn [snd] in Hex.
    pose proof (proj1 (Forall_forall _ _) affinity_lists_distinct _ Hin) as Hnd.
    cbn [snd] in Hnd.
    assert (Hno : ~ Exists (fun k => k ∈ PyDict.keys fh) []).
    { intros H. by apply Exists_nil in H. }
    destruct (mood_rules_defaults (Some c) fh [] aff Hno Haff Hex)
      as [Hpool Hne].
    set (pool := fold_left (boost_step fh 2) aff []) in *.
    assert (Hkeys : PyDict.keys pool = dedup [] (present_in fh aff)).
    { subst pool. by rewrite keys_boost_fold. }
    exists pool. split; [| split; [| split]].
    + unfold selection_pool, classify. rewrite Hc. exact Hpool.
    + rewrite Hkeys. apply NoDup_dedup.
    + destruct (_apply_mood_rules_shape (Some c) fh []) as (r & Hr & Hshape).
      rewrite Hpool in Hr. injection Hr as <-.
      destruct (mood_defaults_shape fh aff []) as (r & Hr & Hall);
        [constructor |].
      rewrite mood_defaults_fold in Hr. by injection Hr as <-.
    + intros k Hk. rewrite Hkeys in Hk.
      apply elem_of_dedup in Hk as [Hk _].
      apply list_elem_of_filter in Hk as [Hkfh Hkaff].
      apply mem_keys, mem_get in Hkfh as [v Hv].
      exists v. split; [done |]. apply get_elem_of. subst pool.
      rewrite boost_preferences_get, Hv. by rewrite bool_decide_true.
  - assert (Hall : Forall (fun k => k ∈ PyDict.keys fh)
                     (_normalize_preferences (p0 :: prefs'))).
    { subst fh. rewrite weighted_keys, _normalize_preferences_map.
      by apply Forall_map. }
    assert (Hex : Exists (fun k => k ∈ PyDict.keys fh)
                    (_normalize_preferences (p0 :: prefs'))).
    { rewrite _normalize_preferences_map in *.
      apply Forall_cons in Hall as [Hx _]. by apply Exists_cons_hd. }
    destruct (mood_rules_matched (classify mood) fh _ Hex)
      as (pool & Hpool & Hkeys & Hboost & Hget).
    exists pool. split; [done |]. split; [| split; [done |]].
    + rewrite Hkeys. apply NoDup_dedup.
    + intros k Hk. rewrite Hkeys in Hk.
      apply elem_of_dedup in Hk as [Hk _].
      apply list_elem_of_filter in Hk as [Hkfh Hkp].
      apply mem_keys, mem_get in Hkfh as [v Hv].
      exists v. split; [done |]. apply get_elem_of.
      rewrite Hget, Hv. by rewrite bool_decide_true.
Qed.

(** X17. The weights of the uniform draw. On valid input every habit of a
    category in the selection pool occurs in the flattened pool exactly
    (screen-time weight) x (mood weight) times: the screen-time weight is 2
    for the categories the screen time boosts and 1 otherwise; the mood
    weight is 2 without preferences, and with preferences 3 for a category
    the mood has affinity with and 2 for any other. A habit of a category
    that is not in the pool does not occur at all. *)
Theorem flattened_pool_weights mood t prefs :
  lower mood ∈ valid_moods -> (0 <= t)%Z ->
  Forall (fun p => normalize p ∈ valid_preferences) prefs ->
  exists pool,
    selection_pool mood t prefs = inr pool /\
    forall k h, h ∈ habits_of k ->
      occurrences h (flatten pool)
      = if bool_decide (k ∈ PyDict.keys pool) then
          (if bool_decide (k ∈ Calls.boosted_categories t) then 2 else 1)
          * (match prefs with
             | [] => 2
             | _ :: _ =>
                 if bool_decide (k ∈ default [] (affinity_of (classify mood)))
                 then 3 else 2
             end)
        else 0.
Proof.
  intros Hm _ Hp.
  destruct (valid_pool_entries mood t prefs Hm Hp)
    as (pool & Hpool & Hnd & Hboost & Hentries).
  exists pool. split; [done |]. intros k h Hh.
  assert (Hother : forall k' l', (k', l') ∈ pool -> k' <> k -> h ∉ l').
  { intros k' l' Hkl Hne Hin.
    destruct (proj1 (Forall_forall _ _) Hboost _ Hkl)
      as (v & n & Hget & Hl & _). simpl in *. subst l'.
    apply elem_of_repeat_list in Hin. apply get_elem_of in Hget.
    pose proof (proj1 (Forall_forall _ _) (weighted_entries_from_category t)
                  _ Hget) as Hv.
    pose proof (proj1 (Forall_forall _ _) Hv h Hin) as Hh'. simpl in Hh'.
    apply Hne. by apply (habits_of_one_category k' k h). }
  case_bool_decide as Hk.
  - destruct (Hentries k Hk) as (v & Hv & Hin).
    rewrite (occurrences_flatten_one pool k _ h Hnd Hin Hother).
    rewrite occurrences_repeat_list.
    apply get_elem_of in Hv.
    pose proof (proj1 (Forall_forall _ _) (weighted_occurrences t) _ Hv) as Hw.
    cbn [fst snd] in Hw.
    rewrite (proj1 (Forall_forall _ _) Hw h Hh). lia.
  - apply occurrences_absent. intros Hin.
    apply flatten_elem_of in Hin as (k' & l' & Hkl & Hin).
    apply (Hother k' l' Hkl); [| done].
    intros ->. apply Hk. unfold PyDict.keys. apply list_elem_of_fmap.
    by exists (k, l').
Qed.

Lemma flattened_pool_weights_witness :
  lower "Stressed" ∈ valid_moods /\ (0 <= 310)%Z /\
  Forall (fun p => normalize p ∈ valid_preferences) ["Relaxation"; "Nature"] /\
  exists pool,
    selection_pool "Stressed" 310 ["Relaxation"; "Nature"] = inr pool /\
    occurrences "Water your plants" (flatten pool) = 6 /\
    occurrences "Take a mindful tea break" (flatten pool) = 3 /\
    occurrences "Tidy your workspace" (flatten pool) = 0.
Proof.
  assert (Hm : lower "Stressed" ∈ valid_moods) by by_compute.
  assert (Ht : (0 <= 310)%Z) by lia.
  assert (Hp : Forall (fun p => normalize p ∈ valid_preferences)
                 ["Relaxation"; "Nature"]) by by_compute.
  split; [exact Hm |]. split; [exact Ht |]. split; [exact Hp |].
  destruct (flattened_pool_weights "Stressed" 310 ["Relaxation"; "Nature"]
              Hm Ht Hp) as (pool & Hpool & Hw).
  exists pool. split; [exact Hpool |].
  rewrite (Hw "nature" "Water your plants") by by_compute.
  rewrite (Hw "relaxation" "Take a mindful tea break") by by_compute.
  rewrite (Hw "productivity" "Tidy your workspace") by by_compute.
  assert (Hpool' := Hpool). vm_compute in Hpool'. injection Hpool' as <-.
  split; [| split]; vm_compute; reflexivity.
Defined.
